(** * A per-subject link directory served over REST (server.js)

    The server keeps, for each of five fixed subjects, a list of titled
    links.  It persists them either in a MongoDB collection through the
    Mongoose model [Link] (when [MONGODB_URI] is set) or in the JSON file
    [data.json] (otherwise).  This development embeds the four route
    handlers together with the helpers they call, and states the properties
    of the link service over that embedding.

    Conventions of the embedding:
    - Requests are served one at a time: a handler is a function from the
      store before the request to the response and the store after it.
      Storage is reliable: a read returns what was last written.
    - [data.json] is read as an object from keys to entries [{ name, links }]
      whose [links], when present, is an array of link records; an entry, its
      [links] and the [_id] of a link may each be missing, as the handlers
      provide for ([data[key]?.links || []], [l._id || '']).
    - A request body is a value as [JSON.parse] yields it, infinities and
      negative zero included.  The values of a link record, in [data.json]
      and in a response, are values as [JSON.stringify] writes them: whatever
      the server stores or sends goes through it.  A [data.json] edited by
      hand to hold a number literal that overflows, or [-0], is outside the
      model.
    - What a handler reads from its surroundings (the clock, the identifier
      generated for a new document) is passed to it as an [env].
    - What the libraries decide (URL parsing, Mongoose's casts) is a parameter
      of the model, the class [Platform].
    - Looking a request key up in the object literal [SUBJECTS] follows the
      prototype chain, as JavaScript does. *)

From Stdlib Require Import ZArith String Ascii List Lia Sorted.
From stdpp Require Import base option list sorting strings gmap.

Local Open Scope string_scope.
Local Open Scope list_scope.
Local Open Scope Z_scope.

(** ** JSON values

    A number is a double.  Those [JSON.parse] yields are the finite ones,
    negative zero, and the two infinities a literal such as [1e999] overflows
    to.  [JSON.stringify] writes a finite number as it is, negative zero as
    [0] and an infinity as [null], so a document it wrote parses to finite
    numbers other than negative zero. *)

(** A finite double other than negative zero: zero, or plus or minus
    [mantissa * 2 ^ exponent]. *)
Inductive finite : Type :=
| Zero
| Nonzero (negative : bool) (mantissa : positive) (exponent : Z).

(** A number as [JSON.parse] yields it. *)
Inductive number : Type :=
| Finite (x : finite)
| NegativeZero
| Infinity (negative : bool).

#[warnings="-register-all"]
Inductive json_of (N : Type) : Type :=
| JNull
| JBool (b : bool)
| JNum (n : N)
| JStr (s : string)
| JArr (items : list (json_of N))
| JObj (props : list (string * json_of N)).
Arguments JNull {N}.
Arguments JBool {N} b.
Arguments JNum {N} n.
Arguments JStr {N} s.
Arguments JArr {N} items.
Arguments JObj {N} props.

(** The value [bodyParser.json()] hands over as a request body. *)
Definition json : Type := json_of number.

(** A value as it stands in a JSON text that [JSON.stringify] wrote: in
    [data.json] after [fs.writeJson], and in a response sent by [res.json]. *)
Definition serialized : Type := json_of finite.

(** What a reader gets back from [JSON.stringify(v)]. *)
Fixpoint JSON_stringify (v : json) : serialized :=
  match v with
  | JNull => JNull
  | JBool b => JBool b
  | JNum (Finite x) => JNum x
  | JNum NegativeZero => JNum Zero
  | JNum (Infinity _) => JNull
  | JStr s => JStr s
  | JArr items => JArr (map JSON_stringify items)
  | JObj props => JObj (map (λ p, (p.1, JSON_stringify p.2)) props)
  end.

(** A JavaScript value that comes out of a JSON document: [None] is
    [undefined]. *)
Definition undefined : option json := None.

(** ToBoolean: of the numbers, the two zeros are falsy. *)
Definition truthy (v : option json) : bool :=
  match v with
  | None => false
  | Some JNull => false
  | Some (JBool b) => b
  | Some (JNum (Finite Zero)) => false
  | Some (JNum NegativeZero) => false
  | Some (JNum _) => true
  | Some (JStr s) => negb (String.eqb s "")
  | Some (JArr _) => true
  | Some (JObj _) => true
  end.

(** The value itself when it is truthy, [undefined] otherwise. *)
Definition present (v : option json) : option json :=
  if truthy v then v else undefined.

(** [v || d] where [d] is a JSON value: the result is never [undefined]. *)
Definition or_else (v : option json) (d : json) : json :=
  default d (present v).

(** Own property of an object given by its property list (one binding per
    name, as in a parsed document). *)
Fixpoint assoc {A : Type} (key : string) (o : list (string * A)) : option A :=
  match o with
  | [] => None
  | (k, a) :: o' => if String.eqb k key then Some a else assoc key o'
  end.

(** Own enumerable property names, in insertion order. *)
Definition Object_keys {A : Type} (o : list (string * A)) : list string :=
  map fst o.

(** The names every ordinary object inherits from [Object.prototype]. *)
Definition Object_prototype : list string :=
  [ "constructor"; "__defineGetter__"; "__defineSetter__"; "hasOwnProperty";
    "__lookupGetter__"; "__lookupSetter__"; "isPrototypeOf";
    "propertyIsEnumerable"; "toString"; "valueOf"; "__proto__";
    "toLocaleString" ].

(** The result of reading [o[key]] on an object literal: an own property,
    a built-in found on the prototype chain (a function, or the prototype
    itself for [__proto__]: truthy in every case), or [undefined]. *)
Inductive property (A : Type) : Type :=
| Own (a : A)
| Inherited
| Absent.
Arguments Own {A} a.
Arguments Inherited {A}.
Arguments Absent {A}.

Definition get {A : Type} (o : list (string * A)) (key : string) : property A :=
  match assoc key o with
  | Some a => Own a
  | None => if bool_decide (key ∈ Object_prototype) then Inherited else Absent
  end.

(** [const { title, url, addedBy } = req.body || {}]: only an object body
    carries the fields (none of the three names is inherited). *)
Definition field (body : option json) (name : string) : option json :=
  match body with
  | Some (JObj props) => assoc name props
  | _ => undefined
  end.

(** ** Number.prototype.toString(radix) on integers *)

Definition digit_char (d : Z) : ascii :=
  ascii_of_nat (Z.to_nat (if d <? 10 then 48 + d else 87 + d)).

(** Digits of a non-negative integer, least significant first; [fuel] bounds
    the number of digits. *)
Fixpoint digits (fuel : nat) (radix n : Z) : list Z :=
  match fuel with
  | O => []
  | S fuel' =>
      n mod radix ::
        (if n / radix =? 0 then [] else digits fuel' radix (n / radix))
  end.

(** The number a list of digits stands for, least significant first. *)
Fixpoint digits_value (radix : Z) (ds : list Z) : Z :=
  match ds with
  | [] => 0
  | d :: ds' => d + radix * digits_value radix ds'
  end.

Definition magnitude (radix n : Z) : list Z :=
  rev (digits (S (Z.to_nat (Z.log2 n))) radix n).

Definition Number_toString (radix n : Z) : string :=
  let text := string_of_list_ascii (map digit_char (magnitude radix (Z.abs n))) in
  if n <? 0 then String "-" text else text.

(** ** Subjects metadata *)

Record Subject := { name : string; containerId : string }.

Definition SUBJECTS : list (string * Subject) :=
  [ ("toc", {| name := "Theory of Computation"; containerId := "tocLinks" |});
    ("ai", {| name := "Artificial Intelligence"; containerId := "aiLinks" |});
    ("sepm", {| name := "Software Engineering Project Management";
                containerId := "sepmLinks" |});
    ("cn", {| name := "Computer Networks"; containerId := "cnLinks" |});
    ("rm", {| name := "Research Methodology"; containerId := "rmLinks" |}) ].

(** ** Links and the two stores

    One record type serves both backends.  [_id] is optional because the
    file variant reads it as [l._id || '']; [title], [url] and [addedBy] are
    serialized values (strings in the collection, where the schema casts
    them); [addedAt] is the instant in milliseconds since the epoch (a [Date]
    in the collection, its ISO-8601 rendering in the file). *)

Record Link := {
  _id : option string;
  subjectKey : string;
  title : serialized;
  url : serialized;
  addedBy : serialized;
  addedAt : Z
}.

(** One entry of [data.json]: [{ name, links }], where [links] may be
    missing. *)
Record SubjectEntry := { entry_name : string; links : option (list Link) }.

(** One entry of the object answered by [GET /api/subjects]. *)
Record SubjectLinks := { subject_name : string; subject_links : list Link }.

(** [file] is the parsed content of [data.json], [None] while the file does
    not exist; [collection] holds the documents of the MongoDB collection in
    their natural (insertion) order. *)
Record store := {
  file : option (gmap string SubjectEntry);
  collection : list Link
}.

(** What a request reads from its surroundings: [Date.now()], the instant of
    [new Date()], and the identifier the driver generates for a new
    document. *)
Record env := { Date_now : Z; new_Date : Z; new_ObjectId : string }.

(** What the process is configured with and what the libraries decide:
    the connection string, whether [new URL(v)] returns normally, Mongoose's
    cast of a non-string value to [String], and its cast of a request string
    to [ObjectId]. *)
Class Platform := {
  MONGODB_URI : string;
  URL_parses : json → bool;
  castString : json → option string;
  castObjectId : string → option string
}.

Definition USE_DB `{Platform} : bool := truthy (Some (JStr MONGODB_URI)).

(** ** Awaited computations: a store is threaded through, and a computation
    either returns or throws. *)

Inductive outcome (A : Type) : Type :=
| Returned (a : A)
| Thrown (error : string).
Arguments Returned {A} a.
Arguments Thrown {A} error.

Definition M (A : Type) : Type := store → outcome A * store.

Definition ret {A : Type} (a : A) : M A := λ st, (Returned a, st).

Definition throw {A : Type} (error : string) : M A := λ st, (Thrown error, st).

Definition bind {A B : Type} (m : M A) (k : A → M B) : M B := λ st,
  match m st with
  | (Returned a, st') => k a st'
  | (Thrown error, st') => (Thrown error, st')
  end.

Notation "'await' x ← m ; k" := (bind m (λ x, k))
  (at level 10, x name, m at level 100, k at level 200, only parsing).

(** ** HTTP responses *)

Inductive payload : Type :=
| JsonSubjects (result : gmap string SubjectLinks)
| JsonLinks (ls : list Link)
| JsonLink (l : Link)
| JsonError (error : string).

Record response := { status : Z; body : payload }.

(** [try { ... } catch (e) { res.status(500).json({ error }) }] *)
Definition try_catch (handler : M response) (error : string)
    : store → response * store := λ st,
  match handler st with
  | (Returned res, st') => (res, st')
  | (Thrown _, st') => ({| status := 500; body := JsonError error |}, st')
  end.

(** ** JSON fallback helpers *)

Definition defaultJsonData : gmap string SubjectEntry :=
  foldl (λ base '(k, subject),
           <[k := {| entry_name := name subject; links := Some [] |}]> base)
        ∅ SUBJECTS.

Definition ensureDataFile : M unit := λ st,
  match file st with
  | Some _ => (Returned tt, st)
  | None =>
      (Returned tt, {| file := Some defaultJsonData; collection := collection st |})
  end.

Definition readJsonData : M (gmap string SubjectEntry) :=
  await _ ← ensureDataFile;
  λ st, match file st with
        | Some data => (Returned data, st)
        | None => (Thrown "ENOENT", st)
        end.

Definition writeJsonData (data : gmap string SubjectEntry) : M unit := λ st,
  (Returned tt, {| file := Some data; collection := collection st |}).

(** [data[key]?.links || []]: an entry that is missing, or a built-in
    inherited by [data], has no [links]. *)
Definition links_or_empty (data : gmap string SubjectEntry) (key : string)
    : list Link :=
  match data !! key with
  | Some entry => default [] (links entry)
  | None => []
  end.

(** The array [data[key].links] after an in-place update, as seen through
    [data]. *)
Definition with_links (data : gmap string SubjectEntry) (key : string)
    (ls : list Link) : gmap string SubjectEntry :=
  alter (λ entry, {| entry_name := entry_name entry; links := Some ls |}) key data.

(** [data[key].links.push(newLink)]: a [TypeError] unless the entry and its
    array are there. *)
Definition push_link (data : gmap string SubjectEntry) (key : string)
    (newLink : Link) : M (gmap string SubjectEntry) :=
  match data !! key with
  | Some entry =>
      match links entry with
      | Some ls => ret (with_links data key (ls ++ [newLink]))
      | None => throw "TypeError"
      end
  | None => throw "TypeError"
  end.

(** [list.findIndex(l => (l._id || '') === id)] *)
Definition findIndex_id (id : string) (ls : list Link) : option (nat * Link) :=
  list_find (λ l, default "" (_id l) = id) ls.

(** ** The Mongoose model [Link]

    A query filters the collection and sorts the matches by [addedAt]; the
    sort is taken to keep documents with equal instants in natural order. *)

Fixpoint insert_sorted (l : Link) (sorted : list Link) : list Link :=
  match sorted with
  | [] => [l]
  | l' :: rest =>
      if addedAt l <? addedAt l' then l :: sorted
      else l' :: insert_sorted l rest
  end.

Definition sort_addedAt (ls : list Link) : list Link :=
  foldl (λ sorted l, insert_sorted l sorted) [] ls.

(** [Link.find({ subjectKey: key }).sort({ addedAt: 1 }).lean()] *)
Definition Link_find (key : string) : M (list Link) := λ st,
  (Returned (sort_addedAt (filter (λ l, subjectKey l = key) (collection st))), st).

(** The schema's [String] paths: a string is kept, any other value goes
    through Mongoose's caster. *)
Definition String_cast `{Platform} (v : json) : option string :=
  match v with
  | JStr s => Some s
  | _ => castString v
  end.

(** [Link.create({ subjectKey, title, url, addedBy })]: the values are cast,
    then validated ([required] on title and url, [enum] on subjectKey); the
    document gets a generated [_id] and [addedAt = Date.now()], and the
    insert fails on an [_id] already in the collection. *)
Definition Link_create `{Platform} (e : env) (key : string)
    (title url addedBy : json) : M Link := λ st,
  match String_cast title, String_cast url, String_cast addedBy with
  | Some t, Some u, Some a =>
      if bool_decide (key ∈ Object_keys SUBJECTS ∧ t ≠ "" ∧ u ≠ "") then
        let created :=
          {| _id := Some (new_ObjectId e); subjectKey := key; title := JStr t;
             url := JStr u; addedBy := JStr a; addedAt := Date_now e |} in
        if bool_decide (Some (new_ObjectId e) ∈ _id <$> collection st) then
          (Thrown "MongoServerError", st)
        else
          (Returned created,
           {| file := file st; collection := collection st ++ [created] |})
      else (Thrown "ValidationError", st)
  | _, _, _ => (Thrown "ValidationError", st)
  end.

(** [Link.findOneAndDelete({ _id: id, subjectKey: key }).lean()]: the filter
    is cast first, and a string that is no [ObjectId] is a [CastError]. *)
Definition Link_findOneAndDelete `{Platform} (id key : string)
    : M (option Link) := λ st,
  match castObjectId id with
  | None => (Thrown "CastError", st)
  | Some oid =>
      match list_find (λ l, _id l = Some oid ∧ subjectKey l = key) (collection st) with
      | Some (idx, deleted) =>
          (Returned (Some deleted),
           {| file := file st; collection := delete idx (collection st) |})
      | None => (Returned None, st)
      end
  end.

(** ** API routes

    Each handler is named after the link-service operation it implements. *)

Definition json_error (code : Z) (error : string) : response :=
  {| status := code; body := JsonError error |}.

(** [app.get('/api/subjects', ...)] *)
Definition getAllSubjects `{Platform} : store → response * store :=
  try_catch
    (await result ←
       (if USE_DB then
          foldl (λ (pending : M (gmap string SubjectLinks)) '(key, subject),
                   await result ← pending;
                   await ls ← Link_find key;
                   ret (<[key := {| subject_name := name subject;
                                    subject_links := ls |}]> result))
                (ret ∅) SUBJECTS
        else
          await data ← readJsonData;
          ret (foldl (λ (result : gmap string SubjectLinks) '(key, subject),
                        <[key := {| subject_name := name subject;
                                    subject_links := links_or_empty data key |}]>
                          result)
                     ∅ SUBJECTS));
     ret {| status := 200; body := JsonSubjects result |})
    "Failed to read subjects".

(** [app.get('/api/subjects/:key/links', ...)] *)
Definition getSubjectLinks `{Platform} (key : string)
    : store → response * store :=
  try_catch
    (match get SUBJECTS key with
     | Absent => ret (json_error 404 "Subject not found")
     | _ =>
         await ls ←
           (if USE_DB then Link_find key
            else await data ← readJsonData; ret (links_or_empty data key));
         ret {| status := 200; body := JsonLinks ls |}
     end)
    "Failed to read links".

(** The object literal bound to [newLink] in the file variant, as it is
    serialized: both of its uses, [fs.writeJson] and [res.json], go through
    [JSON.stringify]. *)
Definition newLink (e : env) (key : string) (title url : json)
    (addedBy : option json) : Link :=
  {| _id := Some (Number_toString 36 (Date_now e));
     subjectKey := key;
     title := JSON_stringify title;
     url := JSON_stringify url;
     addedBy := JSON_stringify (or_else addedBy (JStr "admin"));
     addedAt := new_Date e |}.

(** [app.post('/api/subjects/:key/links', ...)] *)
Definition addLink `{Platform} (e : env) (key : string) (body : option json)
    : store → response * store :=
  try_catch
    (let title := field body "title" in
     let url := field body "url" in
     let addedBy := field body "addedBy" in
     match present title, present url with
     | Some title, Some url =>
         match get SUBJECTS key with
         | Absent => ret (json_error 404 "Subject not found")
         | _ =>
             if negb (URL_parses url) then ret (json_error 400 "Invalid URL")
             else if USE_DB then
               await created ←
                 Link_create e key title url (or_else addedBy (JStr "admin"));
               ret {| status := 201; body := JsonLink created |}
             else
               await data ← readJsonData;
               let newLink := newLink e key title url addedBy in
               await data ← push_link data key newLink;
               await _ ← writeJsonData data;
               ret {| status := 201; body := JsonLink newLink |}
         end
     | _, _ => ret (json_error 400 "Missing title or url")
     end)
    "Failed to add link".

(** [app.delete('/api/subjects/:key/links/:id', ...)] *)
Definition deleteLink `{Platform} (key id : string)
    : store → response * store :=
  try_catch
    (match get SUBJECTS key with
     | Absent => ret (json_error 404 "Subject not found")
     | _ =>
         if USE_DB then
           await deleted ← Link_findOneAndDelete id key;
           match deleted with
           | None => ret (json_error 404 "Link not found")
           | Some deleted => ret {| status := 200; body := JsonLink deleted |}
           end
         else
           await data ← readJsonData;
           let list := links_or_empty data key in
           match findIndex_id id list with
           | None => ret (json_error 404 "Link not found")
           | Some (idx, removed) =>
               await _ ← writeJsonData (with_links data key (delete idx list));
               ret {| status := 200; body := JsonLink removed |}
           end
     end)
    "Failed to delete link".

(** ** The running server *)

Inductive request : Type :=
| GET_subjects
| GET_links (key : string)
| POST_link (key : string) (body : option json)
| DELETE_link (key id : string).

Definition serve `{Platform} (e : env) (req : request)
    : store → response * store :=
  match req with
  | GET_subjects => getAllSubjects
  | GET_links key => getSubjectLinks key
  | POST_link key body => addLink e key body
  | DELETE_link key id => deleteLink key id
  end.

(** The store after a sequence of requests, each served in the surroundings
    paired with it. *)
Fixpoint run `{Platform} (trace : list (env * request)) (st : store) : store :=
  match trace with
  | [] => st
  | (e, req) :: rest => run rest (serve e req st).2
  end.

(** [start()]: the file variant makes sure [data.json] exists before
    listening. *)
Definition start `{Platform} (st : store) : store :=
  if USE_DB then st else (ensureDataFile st).2.

(** A first deployment: no data file, an empty collection. *)
Definition blank : store := {| file := None; collection := [] |}.

(** ** Vocabulary of the properties *)

(** The document a request of the file variant works on: the content of
    [data.json], or the default content it is created with. *)
Definition data_of (st : store) : gmap string SubjectEntry :=
  default defaultJsonData (file st).

(** The store once [data.json] is known to exist. *)
Definition ensured (st : store) : store :=
  {| file := Some (data_of st); collection := collection st |}.

(** The documents of the collection filed under a subject. *)
Definition documents_of (key : string) (st : store) : list Link :=
  filter (λ l, subjectKey l = key) (collection st).

(** The links the store holds under a subject, in stored order. *)
Definition stored_under `{Platform} (key : string) (st : store) : list Link :=
  if USE_DB then documents_of key st else links_or_empty (data_of st) key.

(** What [getSubjectLinks] answers for a key that passes the registry check:
    the links listed under the subject. *)
Definition listing `{Platform} (key : string) (st : store) : list Link :=
  if USE_DB then sort_addedAt (documents_of key st)
  else links_or_empty (data_of st) key.

(** A request that passes the three guards of the POST handler, with the
    title and url it carries. *)
Definition accepted `{Platform} (key : string) (body : option json)
    (t u : json) : Prop :=
  present (field body "title") = Some t ∧ present (field body "url") = Some u ∧
  get SUBJECTS key ≠ Absent ∧ URL_parses u = true.

(** Ascending [addedAt]. *)
Definition ascending (ls : list Link) : Prop := Sorted Z.le (addedAt <$> ls).

(** The clock never runs backwards over a run: the instants [new Date()]
    yields are in non-decreasing order. *)
Definition steady_clock (trace : list (env * request)) : Prop :=
  Sorted Z.le ((λ step, new_Date step.1) <$> trace).

(** The [Date.now()] readings of the POST requests of a run, in order. *)
Fixpoint post_ticks (trace : list (env * request)) : list Z :=
  match trace with
  | [] => []
  | (e, POST_link _ _) :: rest => Date_now e :: post_ticks rest
  | _ :: rest => post_ticks rest
  end.

(** No two links of the data file share an id: neither within a subject nor
    across subjects. *)
Definition ids_unique (data : gmap string SubjectEntry) : Prop :=
  (∀ key, NoDup (_id <$> links_or_empty data key)) ∧
  (∀ k1 k2 l1 l2, k1 ≠ k2 →
     l1 ∈ links_or_empty data k1 → l2 ∈ links_or_empty data k2 →
     _id l1 ≠ _id l2).

(** Every id in the data file is the base-36 rendering of one of [ticks]. *)
Definition minted (ticks : list Z) (data : gmap string SubjectEntry) : Prop :=
  ∀ key l, l ∈ links_or_empty data key →
    ∃ t, t ∈ ticks ∧ _id l = Some (Number_toString 36 t).

(** Every array of the data file is in ascending [addedAt] order and holds no
    instant later than [bound]. *)
Definition sorted_upto (bound : Z) (data : gmap string SubjectEntry) : Prop :=
  ∀ key,
    StronglySorted Z.le (addedAt <$> links_or_empty data key) ∧
    Forall (λ l, addedAt l ≤ bound) (links_or_empty data key).

(** What a request of the file variant does to the document: nothing, a push
    onto the array of a subject, or a splice out of it. *)
Inductive file_step `{Platform} (e : env) (data : gmap string SubjectEntry)
    : request → gmap string SubjectEntry → Prop :=
| step_read (req : request) : file_step e data req data
| step_push (key : string) (body : option json) (t u : json) (ls : list Link) :
    accepted key body t u →
    data !! key ≫= links = Some ls →
    file_step e data (POST_link key body)
      (with_links data key (ls ++ [newLink e key t u (field body "addedBy")]))
| step_splice (key id : string) (idx : nat) (removed : Link) (ls : list Link) :
    data !! key ≫= links = Some ls →
    findIndex_id id ls = Some (idx, removed) →
    file_step e data (DELETE_link key id) (with_links data key (delete idx ls)).

(** The id a link of the data file is matched by: [l._id || '']. *)
Definition id_or_empty (l : Link) : string := default "" (_id l).

(** A link as the add handler files it under [key]: under a key of the
    registry, carrying that key and an id, its title and its url being what
    serialization leaves of a truthy value (the value itself, but [null] for
    an infinity). *)
Definition well_filed (key : string) (l : Link) : Prop :=
  key ∈ Object_keys SUBJECTS ∧ subjectKey l = key ∧ is_Some (_id l) ∧
  (∃ t, truthy (Some t) = true ∧ title l = JSON_stringify t) ∧
  (∃ u, truthy (Some u) = true ∧ url l = JSON_stringify u).

(** A document that has exactly the entries of the registry, each with the
    subject's display name and an array of links. *)
Definition registry_shaped (data : gmap string SubjectEntry) : Prop :=
  ∀ key,
    match assoc key SUBJECTS with
    | Some subject =>
        ∃ ls, data !! key = Some {| entry_name := name subject; links := Some ls |}
    | None => data !! key = None
    end.

(** What a request of the database variant does to the collection: nothing,
    the insert of a validated document, or the removal of the first document
    matching both the id and the subject. *)
Inductive db_step `{Platform} (e : env) (coll : list Link)
    : request → list Link → Prop :=
| db_read (req : request) : db_step e coll req coll
| db_insert (key : string) (body : option json) (ts us as' : string) :
    key ∈ Object_keys SUBJECTS → ts ≠ "" → us ≠ "" →
    (Some (new_ObjectId e) ∉ _id <$> coll) →
    db_step e coll (POST_link key body)
      (coll ++ [{| _id := Some (new_ObjectId e); subjectKey := key;
                   title := JStr ts; url := JStr us; addedBy := JStr as';
                   addedAt := Date_now e |}])
| db_remove (key id oid : string) (idx : nat) (deleted : Link) :
    castObjectId id = Some oid →
    list_find (λ l, _id l = Some oid ∧ subjectKey l = key) coll
      = Some (idx, deleted) →
    db_step e coll (DELETE_link key id) (delete idx coll).

(** ** Sample platforms

    Stand-ins for the library functions, used to run the handlers on concrete
    requests: a URL check that accepts exactly the strings with an [http://]
    or [https://] prefix and something after it, a [String] caster that
    renders integers, infinities and booleans and rejects everything else
    that is no string, and an
    [ObjectId] caster that accepts 24 hexadecimal digits. *)

Definition sample_URL_parses (v : json) : bool :=
  match v with
  | JStr s =>
      (String.prefix "http://" s && (7 <? Z.of_nat (String.length s)))
      || (String.prefix "https://" s && (8 <? Z.of_nat (String.length s)))
  | _ => false
  end.

Definition sample_castString (v : json) : option string :=
  match v with
  | JNum (Finite Zero) | JNum NegativeZero => Some "0"
  | JNum (Finite (Nonzero negative mantissa exponent)) =>
      if 0 <=? exponent then
        Some (Number_toString 10
                ((if negative then -1 else 1) * Z.pos mantissa * 2 ^ exponent))
      else None
  | JNum (Infinity negative) =>
      Some (if negative then "-Infinity" else "Infinity")
  | JBool b => Some (if b then "true" else "false")
  | _ => None
  end.

Definition is_hex (c : ascii) : bool :=
  let n := Z.of_nat (nat_of_ascii c) in
  ((48 <=? n) && (n <=? 57)) || ((97 <=? n) && (n <=? 102))
  || ((65 <=? n) && (n <=? 70)).

Definition sample_castObjectId (s : string) : option string :=
  if (Z.of_nat (String.length s) =? 24) && forallb is_hex (list_ascii_of_string s)
  then Some s else None.

Definition file_platform : Platform :=
  {| MONGODB_URI := "";
     URL_parses := sample_URL_parses;
     castString := sample_castString;
     castObjectId := sample_castObjectId |}.

Definition db_platform : Platform :=
  {| MONGODB_URI := "mongodb://localhost:27017/links";
     URL_parses := sample_URL_parses;
     castString := sample_castString;
     castObjectId := sample_castObjectId |}.

Definition link_body (t u : string) : option json :=
  Some (JObj [("title", JStr t); ("url", JStr u)]).

(** A body whose title is the number a literal such as [1e999] parses to. *)
Definition overflowing_body : option json :=
  Some (JObj [("title", JNum (Infinity false));
              ("url", JStr "https://x.test/cn1"); ("addedBy", JStr "dilip")]).

Definition at_time (t : Z) (oid : string) : env :=
  {| Date_now := t; new_Date := t; new_ObjectId := oid |}.

(** A run of the file variant, and of the database variant, from a first
    deployment. *)
Definition file_run (trace : list (env * request)) : store :=
  @run file_platform trace (@start file_platform blank).

Definition db_run (trace : list (env * request)) : store :=
  @run db_platform trace (@start db_platform blank).

(** Two links added within one millisecond, under two subjects. *)
Definition same_tick_trace : list (env * request) :=
  [ (at_time 1700000000000 "65527f3a0000000000000001",
     POST_link "toc" (link_body "Sipser" "https://example.com/toc"));
    (at_time 1700000000000 "65527f3a0000000000000002",
     POST_link "ai" (link_body "AIMA" "https://example.com/ai")) ].

(** Two links added under one subject, the wall clock being set back by half
    a second in between. *)
Definition clock_back_trace : list (env * request) :=
  [ (at_time 1700000000500 "65527f3a0000000000000001",
     POST_link "toc" (link_body "Sipser" "https://example.com/toc"));
    (at_time 1700000000000 "65527f3a0000000000000002",
     POST_link "toc" (link_body "Hopcroft" "https://example.com/automata")) ].

(** Three links added half a second apart, the first one then deleted. *)
Definition steady_trace : list (env * request) :=
  [ (at_time 1700000000000 "65527f3a0000000000000001",
     POST_link "toc" (link_body "Sipser" "https://example.com/toc"));
    (at_time 1700000000500 "65527f3a0000000000000002",
     POST_link "ai" (link_body "AIMA" "https://example.com/ai"));
    (at_time 1700000001000 "65527f3a0000000000000003",
     POST_link "toc" (link_body "Hopcroft" "https://example.com/automata"));
    (at_time 1700000001500 "65527f3a0000000000000004",
     DELETE_link "toc" "loyw3v28") ].

(** Four links added while the clock moves on or stands still, three of them
    under one subject. *)
Definition growing_trace : list (env * request) :=
  [ (at_time 1700000000000 "65527f3a0000000000000001",
     POST_link "toc" (link_body "Sipser" "https://example.com/toc"));
    (at_time 1700000000500 "65527f3a0000000000000002",
     POST_link "ai" (link_body "AIMA" "https://example.com/ai"));
    (at_time 1700000001000 "65527f3a0000000000000003",
     POST_link "toc" (link_body "Hopcroft" "https://example.com/automata"));
    (at_time 1700000001000 "65527f3a0000000000000004",
     POST_link "toc" (link_body "Kozen" "https://example.com/kozen")) ].

(** * Properties *)

(** ** Rendering integers *)

Lemma digits_value_digits (radix : Z) (fuel : nat) (n : Z) :
  2 ≤ radix → 0 ≤ n < 2 ^ Z.of_nat fuel →
  digits_value radix (digits fuel radix n) = n.
Proof.
  intros Hradix. revert n. induction fuel as [|fuel IH]; intros n Hn.
  - change (2 ^ Z.of_nat 0) with 1 in Hn. simpl. lia.
  - cbn [digits digits_value].
    pose proof (Z.div_mod n radix ltac:(lia)) as Hdivmod.
    destruct (n / radix =? 0) eqn:Hquot.
    + apply Z.eqb_eq in Hquot. simpl. nia.
    + rewrite IH; [lia|].
      rewrite Nat2Z.inj_succ, Z.pow_succ_r in Hn by lia.
      split; [apply Z.div_pos; lia|].
      apply Z.div_lt_upper_bound; [lia|]. nia.
Qed.

Lemma digits_in_range (radix : Z) (fuel : nat) (n : Z) :
  0 < radix → Forall (λ d, 0 ≤ d < radix) (digits fuel radix n).
Proof.
  intros Hradix. revert n. induction fuel as [|fuel IH]; intros n; simpl.
  - constructor.
  - constructor; [by apply Z.mod_pos_bound|].
    destruct (n / radix =? 0); [constructor|apply IH].
Qed.

Lemma enough_fuel (n : Z) :
  0 ≤ n → 0 ≤ n < 2 ^ Z.of_nat (S (Z.to_nat (Z.log2 n))).
Proof.
  intros Hn. pose proof (Z.log2_nonneg n) as Hlog.
  rewrite Nat2Z.inj_succ, Z2Nat.id by done.
  destruct (decide (n = 0)) as [->|Hpos]; [done|].
  split; [done|]. apply Z.log2_spec. lia.
Qed.

Lemma magnitude_inj (radix n1 n2 : Z) :
  2 ≤ radix → 0 ≤ n1 → 0 ≤ n2 →
  magnitude radix n1 = magnitude radix n2 → n1 = n2.
Proof.
  intros Hradix Hn1 Hn2 Heq. unfold magnitude in Heq.
  apply (f_equal (@rev Z)) in Heq. rewrite !rev_involutive in Heq.
  apply (f_equal (digits_value radix)) in Heq.
  by rewrite !digits_value_digits in Heq by (done || by apply enough_fuel).
Qed.

Lemma magnitude_in_range (radix n : Z) :
  0 < radix → Forall (λ d, 0 ≤ d < radix) (magnitude radix n).
Proof.
  intros Hradix. unfold magnitude. apply Forall_rev. by apply digits_in_range.
Qed.

Lemma magnitude_nonempty (radix n : Z) : magnitude radix n ≠ [].
Proof.
  unfold magnitude. simpl. intros Hnil.
  by apply app_eq_nil in Hnil as [_ Hnil].
Qed.

Lemma digit_char_code (d : Z) :
  0 ≤ d < 36 →
  Z.of_nat (nat_of_ascii (digit_char d)) = if d <? 10 then 48 + d else 87 + d.
Proof.
  intros Hd. unfold digit_char. rewrite nat_ascii_embedding.
  - rewrite Z2Nat.id; [done|]. destruct (d <? 10); lia.
  - destruct (Z.ltb_spec d 10); lia.
Qed.

Lemma digit_char_inj (d1 d2 : Z) :
  0 ≤ d1 < 36 → 0 ≤ d2 < 36 → digit_char d1 = digit_char d2 → d1 = d2.
Proof.
  intros Hd1 Hd2 Heq.
  pose proof (digit_char_code d1 Hd1) as Hc1.
  pose proof (digit_char_code d2 Hd2) as Hc2.
  rewrite Heq in Hc1. rewrite Hc1 in Hc2.
  destruct (Z.ltb_spec d1 10), (Z.ltb_spec d2 10); lia.
Qed.

Lemma digit_char_not_minus (d : Z) : 0 ≤ d < 36 → digit_char d ≠ "-"%char.
Proof.
  intros Hd Heq. pose proof (digit_char_code d Hd) as Hcode.
  rewrite Heq in Hcode. change (nat_of_ascii "-") with 45%nat in Hcode.
  destruct (Z.ltb_spec d 10); lia.
Qed.

Lemma map_digit_char_inj (ds1 ds2 : list Z) :
  Forall (λ d, 0 ≤ d < 36) ds1 → Forall (λ d, 0 ≤ d < 36) ds2 →
  map digit_char ds1 = map digit_char ds2 → ds1 = ds2.
Proof.
  intros Hds1. revert ds2.
  induction Hds1 as [|d1 ds1 Hd1 _ IH]; intros ds2 Hds2 Heq;
    destruct Hds2 as [|d2 ds2 Hd2 Hds2]; simpl in Heq; try done.
  injection Heq as Hhead Htail. f_equal; [by apply digit_char_inj|by apply IH].
Qed.

Lemma string_of_list_ascii_inj (cs1 cs2 : list ascii) :
  string_of_list_ascii cs1 = string_of_list_ascii cs2 → cs1 = cs2.
Proof.
  intros Heq. apply (f_equal list_ascii_of_string) in Heq.
  by rewrite !list_ascii_of_string_of_list_ascii in Heq.
Qed.

(** Distinct integers have distinct renderings, in every radix JavaScript
    allows. *)
Lemma Number_toString_inj (radix n1 n2 : Z) :
  2 ≤ radix ≤ 36 →
  Number_toString radix n1 = Number_toString radix n2 → n1 = n2.
Proof.
  intros Hradix. unfold Number_toString.
  assert (∀ n, Forall (λ d, 0 ≤ d < 36) (magnitude radix (Z.abs n))) as Hrange.
  { intros n. eapply Forall_impl; [apply magnitude_in_range; lia|].
    simpl. intros d Hd. lia. }
  assert (∀ n text,
            string_of_list_ascii (map digit_char (magnitude radix (Z.abs n)))
              ≠ String "-" text) as Hsign.
  { intros n text Heq. apply (f_equal list_ascii_of_string) in Heq.
    rewrite list_ascii_of_string_of_list_ascii in Heq.
    pose proof (Hrange n) as Hn. pose proof (magnitude_nonempty radix (Z.abs n)).
    destruct (magnitude radix (Z.abs n)) as [|d ds]; [done|].
    injection Heq as Hd _. apply Forall_cons in Hn as [Hd' _].
    by apply digit_char_not_minus in Hd. }
  destruct (Z.ltb_spec n1 0) as [Hn1|Hn1], (Z.ltb_spec n2 0) as [Hn2|Hn2];
    intros Heq.
  - injection Heq as Heq. apply string_of_list_ascii_inj in Heq.
    apply map_digit_char_inj in Heq; [|done..].
    apply magnitude_inj in Heq; lia.
  - symmetry in Heq. by apply Hsign in Heq.
  - by apply Hsign in Heq.
  - apply string_of_list_ascii_inj in Heq.
    apply map_digit_char_inj in Heq; [|done..].
    apply magnitude_inj in Heq; lia.
Qed.

(** ** The registry *)

Lemma assoc_None {A : Type} (key : string) (o : list (string * A)) :
  key ∉ Object_keys o → assoc key o = None.
Proof.
  induction o as [|[k a] o IH]; simpl; [done|].
  intros Hnotin. apply not_elem_of_cons in Hnotin as [Hne Hrest].
  destruct (String.eqb_spec k key) as [->|_]; [done|]. by apply IH.
Qed.

Lemma assoc_Some {A : Type} (key : string) (o : list (string * A)) :
  key ∈ Object_keys o → ∃ a, assoc key o = Some a ∧ (key, a) ∈ o.
Proof.
  induction o as [|[k a] o IH]; simpl; [by intros ?%elem_of_nil|].
  intros Hin. destruct (String.eqb_spec k key) as [->|Hne].
  - exists a. split; [done|]. apply elem_of_cons. by left.
  - apply elem_of_cons in Hin as [->|Hin]; [done|].
    destruct (IH Hin) as (a' & Ha & Hmem). exists a'. split; [done|].
    apply elem_of_cons. by right.
Qed.

Lemma get_unknown (key : string) :
  key ∉ Object_keys SUBJECTS → key ∉ Object_prototype →
  get SUBJECTS key = Absent.
Proof.
  intros Hkey Hproto. unfold get. rewrite assoc_None by done.
  by rewrite bool_decide_eq_false_2.
Qed.

Lemma get_known (key : string) :
  key ∈ Object_keys SUBJECTS → ∃ subject, get SUBJECTS key = Own subject.
Proof.
  intros Hkey. destruct (assoc_Some key SUBJECTS Hkey) as (subject & Hsub & _).
  exists subject. unfold get. by rewrite Hsub.
Qed.

Lemma get_known_not_Absent (key : string) :
  key ∈ Object_keys SUBJECTS → get SUBJECTS key ≠ Absent.
Proof. intros [subject Hsub]%get_known. by rewrite Hsub. Qed.

Lemma present_Some (v : option json) (j : json) :
  present v = Some j ↔ v = Some j ∧ truthy v = true.
Proof.
  unfold present, undefined. destruct (truthy v); intuition congruence.
Qed.

Lemma present_None (v : option json) : present v = None ↔ truthy v = false.
Proof.
  unfold present. destruct (truthy v) eqn:Hv; [|done].
  destruct v; [done|discriminate].
Qed.

(** ** The data file *)

Lemma lookup_foldl_insert_notin {A B : Type} (f : string → A → B)
    (o : list (string * A)) (m : gmap string B) (key : string) :
  key ∉ Object_keys o →
  foldl (λ (r : gmap string B) '(k, a), <[k := f k a]> r) m o !! key = m !! key.
Proof.
  revert m. induction o as [|[k a] o IH]; intros m Hkey; simpl; [done|].
  apply not_elem_of_cons in Hkey as [Hne Hkey].
  rewrite IH by done. by rewrite lookup_insert_ne.
Qed.

Lemma lookup_foldl_insert {A B : Type} (f : string → A → B)
    (o : list (string * A)) (m : gmap string B) (key : string) (a : A) :
  NoDup (Object_keys o) → (key, a) ∈ o →
  foldl (λ (r : gmap string B) '(k, a), <[k := f k a]> r) m o !! key
    = Some (f key a).
Proof.
  revert m. induction o as [|[k a'] o IH]; intros m Hnodup Hin; simpl.
  - by apply elem_of_nil in Hin.
  - apply NoDup_cons in Hnodup as [Hk Hnodup].
    apply elem_of_cons in Hin as [Heq|Hin].
    + injection Heq as -> ->.
      rewrite lookup_foldl_insert_notin by done. by rewrite lookup_insert_eq.
    + by apply IH.
Qed.

Lemma SUBJECTS_NoDup : NoDup (Object_keys SUBJECTS).
Proof. apply (bool_decide_unpack _). by vm_compute. Qed.

Lemma readJsonData_eq (st : store) :
  readJsonData st = (Returned (data_of st), ensured st).
Proof.
  unfold readJsonData, bind, ensureDataFile, data_of, ensured.
  destruct st as [[data|] coll]; reflexivity.
Qed.

Lemma ensured_exists (st : store) (data : gmap string SubjectEntry) :
  file st = Some data → ensured st = st.
Proof. destruct st as [f coll]. unfold ensured, data_of. simpl. by intros ->. Qed.

Lemma data_of_ensured (st : store) : data_of (ensured st) = data_of st.
Proof. reflexivity. Qed.

Lemma data_of_written (data : gmap string SubjectEntry) (coll : list Link) :
  data_of {| file := Some data; collection := coll |} = data.
Proof. reflexivity. Qed.

(** ** What each handler answers, backend by backend *)

Section Handlers.
Context `{Platform}.

Lemma getSubjectLinks_file (key : string) (st : store) :
  USE_DB = false → get SUBJECTS key ≠ Absent →
  getSubjectLinks key st =
    ({| status := 200; body := JsonLinks (links_or_empty (data_of st) key) |},
     ensured st).
Proof.
  intros Hfile Hkey. unfold getSubjectLinks, try_catch, bind.
  rewrite Hfile. destruct (get SUBJECTS key); [| |done];
    by rewrite readJsonData_eq.
Qed.

Lemma getSubjectLinks_db (key : string) (st : store) :
  USE_DB = true → get SUBJECTS key ≠ Absent →
  getSubjectLinks key st =
    ({| status := 200; body := JsonLinks (sort_addedAt (documents_of key st)) |},
     st).
Proof.
  intros Hdb Hkey. unfold getSubjectLinks, try_catch, bind.
  rewrite Hdb. by destruct (get SUBJECTS key).
Qed.

Lemma getSubjectLinks_unknown (key : string) (st : store) :
  get SUBJECTS key = Absent →
  getSubjectLinks key st = (json_error 404 "Subject not found", st).
Proof. intros Hkey. unfold getSubjectLinks, try_catch. by rewrite Hkey. Qed.

Lemma deleteLink_unknown (key id : string) (st : store) :
  get SUBJECTS key = Absent →
  deleteLink key id st = (json_error 404 "Subject not found", st).
Proof. intros Hkey. unfold deleteLink, try_catch. by rewrite Hkey. Qed.

Lemma getAllSubjects_file (st : store) :
  USE_DB = false →
  getAllSubjects st =
    ({| status := 200;
        body := JsonSubjects
          (foldl (λ (result : gmap string SubjectLinks) '(key, subject),
                    <[key := {| subject_name := name subject;
                                subject_links := links_or_empty (data_of st) key |}]>
                      result)
                 ∅ SUBJECTS) |},
     ensured st).
Proof.
  intros Hfile. unfold getAllSubjects, try_catch, bind. rewrite Hfile.
  by rewrite readJsonData_eq.
Qed.

Lemma find_all_db (st : store) (o : list (string * Subject))
    (pending : M (gmap string SubjectLinks)) (result : gmap string SubjectLinks) :
  pending st = (Returned result, st) →
  foldl (λ (pending : M (gmap string SubjectLinks)) '(key, subject),
           await result ← pending;
           await ls ← Link_find key;
           ret (<[key := {| subject_name := name subject;
                            subject_links := ls |}]> result))
        pending o st
  = (Returned
       (foldl (λ (result : gmap string SubjectLinks) '(key, subject),
                 <[key := {| subject_name := name subject;
                             subject_links := sort_addedAt (documents_of key st) |}]>
                   result)
              result o),
     st).
Proof.
  revert pending result. induction o as [|[key subject] o IH];
    intros pending result Hpending; simpl; [done|].
  apply IH. unfold bind. by rewrite Hpending.
Qed.

Lemma getAllSubjects_db (st : store) :
  USE_DB = true →
  getAllSubjects st =
    ({| status := 200;
        body := JsonSubjects
          (foldl (λ (result : gmap string SubjectLinks) '(key, subject),
                    <[key := {| subject_name := name subject;
                                subject_links := sort_addedAt (documents_of key st) |}]>
                      result)
                 ∅ SUBJECTS) |},
     st).
Proof.
  intros Hdb. unfold getAllSubjects, try_catch. rewrite Hdb.
  unfold bind at 1. by rewrite (find_all_db st SUBJECTS (ret ∅) ∅).
Qed.

Lemma getSubjectLinks_listing (key : string) (st : store) :
  get SUBJECTS key ≠ Absent →
  (getSubjectLinks key st).1 =
    {| status := 200; body := JsonLinks (listing key st) |}.
Proof.
  intros Hkey. unfold listing. destruct USE_DB eqn:Hdb.
  - by rewrite getSubjectLinks_db.
  - by rewrite getSubjectLinks_file.
Qed.

Lemma addLink_missing (e : env) (key : string) (body : option json) (st : store) :
  present (field body "title") = None ∨ present (field body "url") = None →
  addLink e key body st = (json_error 400 "Missing title or url", st).
Proof.
  intros Hmissing. unfold addLink, try_catch.
  destruct Hmissing as [-> | ->]; [done|].
  by destruct (present (field body "title")).
Qed.

Lemma addLink_unknown (e : env) (key : string) (body : option json)
    (t u : json) (st : store) :
  present (field body "title") = Some t → present (field body "url") = Some u →
  get SUBJECTS key = Absent →
  addLink e key body st = (json_error 404 "Subject not found", st).
Proof. intros Ht Hu Hkey. unfold addLink, try_catch. by rewrite Ht, Hu, Hkey. Qed.

Lemma addLink_invalid_url (e : env) (key : string) (body : option json)
    (t u : json) (st : store) :
  present (field body "title") = Some t → present (field body "url") = Some u →
  get SUBJECTS key ≠ Absent → URL_parses u = false →
  addLink e key body st = (json_error 400 "Invalid URL", st).
Proof.
  intros Ht Hu Hkey Hurl. unfold addLink, try_catch. rewrite Ht, Hu, Hurl.
  by destruct (get SUBJECTS key).
Qed.

Lemma addLink_file (e : env) (key : string) (body : option json)
    (t u : json) (st : store) :
  USE_DB = false → accepted key body t u →
  addLink e key body st =
    match data_of st !! key ≫= links with
    | Some ls =>
        let new := newLink e key t u (field body "addedBy") in
        ({| status := 201; body := JsonLink new |},
         {| file := Some (with_links (data_of st) key (ls ++ [new]));
            collection := collection st |})
    | None => (json_error 500 "Failed to add link", ensured st)
    end.
Proof.
  intros Hfile (Ht & Hu & Hkey & Hurl). unfold addLink, try_catch.
  rewrite Ht, Hu, Hurl, Hfile.
  destruct (get SUBJECTS key); [| |done];
    (cbn [negb]; unfold bind; rewrite readJsonData_eq; unfold push_link;
     destruct (data_of st !! key) as [entry|]; simpl; [|done];
     by destruct (links entry)).
Qed.

Lemma addLink_db (e : env) (key : string) (body : option json)
    (t u : json) (st : store) :
  USE_DB = true → accepted key body t u →
  addLink e key body st =
    match Link_create e key t u (or_else (field body "addedBy") (JStr "admin")) st with
    | (Returned created, st') => ({| status := 201; body := JsonLink created |}, st')
    | (Thrown _, st') => (json_error 500 "Failed to add link", st')
    end.
Proof.
  intros Hdb (Ht & Hu & Hkey & Hurl). unfold addLink, try_catch.
  rewrite Ht, Hu, Hurl, Hdb.
  destruct (get SUBJECTS key); [| |done];
    (cbn [negb]; unfold bind;
     by destruct (Link_create _ _ _ _ _ st) as [[created|error] st']).
Qed.

(** A [201] is only ever answered to an accepted request. *)
Lemma addLink_201_accepted (e : env) (key : string) (body : option json)
    (st : store) :
  status (addLink e key body st).1 = 201 → ∃ t u, accepted key body t u.
Proof.
  intros Hstatus.
  destruct (present (field body "title")) as [t|] eqn:Ht;
    [|rewrite addLink_missing in Hstatus by auto; discriminate].
  destruct (present (field body "url")) as [u|] eqn:Hu;
    [|rewrite addLink_missing in Hstatus by auto; discriminate].
  assert (get SUBJECTS key ≠ Absent) as Hkey.
  { intros Hkey. by rewrite (addLink_unknown _ _ _ t u) in Hstatus. }
  destruct (URL_parses u) eqn:Hurl;
    [|by rewrite (addLink_invalid_url _ _ _ t u) in Hstatus].
  by exists t, u.
Qed.

(** A request that is not accepted is answered 400 or 404 and changes
    nothing. *)
Lemma addLink_refused (e : env) (key : string) (body : option json) (st : store) :
  (∀ t u, ¬ accepted key body t u) →
  (status (addLink e key body st).1 = 400 ∨ status (addLink e key body st).1 = 404)
  ∧ (addLink e key body st).2 = st.
Proof.
  intros Hrefused.
  destruct (present (field body "title")) as [t|] eqn:Ht;
    [|rewrite addLink_missing by auto; auto].
  destruct (present (field body "url")) as [u|] eqn:Hu;
    [|rewrite addLink_missing by auto; auto].
  destruct (get SUBJECTS key) as [subject| |] eqn:Hkey;
    [| |rewrite (addLink_unknown _ _ _ t u) by done; auto].
  - destruct (URL_parses u) eqn:Hurl.
    + destruct (Hrefused t u). unfold accepted. by rewrite Hkey.
    + rewrite (addLink_invalid_url _ _ _ t u); [auto|done|done| |done].
      by rewrite Hkey.
  - destruct (URL_parses u) eqn:Hurl.
    + destruct (Hrefused t u). unfold accepted. by rewrite Hkey.
    + rewrite (addLink_invalid_url _ _ _ t u); [auto|done|done| |done].
      by rewrite Hkey.
Qed.

Lemma accepted_or_refused (key : string) (body : option json) :
  (∃ t u, accepted key body t u) ∨ (∀ t u, ¬ accepted key body t u).
Proof.
  destruct (present (field body "title")) as [t|] eqn:Ht;
    [|right; intros t u (Ht' & _); congruence].
  destruct (present (field body "url")) as [u|] eqn:Hu;
    [|right; intros t' u (_ & Hu' & _); congruence].
  destruct (get SUBJECTS key) as [subject| |] eqn:Hkey;
    [| |right; by intros t' u' (_ & _ & Hkey' & _)].
  - destruct (URL_parses u) eqn:Hurl.
    + left. exists t, u. unfold accepted. by rewrite Hkey.
    + right. intros t' u' (_ & Hu' & _ & Hurl'). congruence.
  - destruct (URL_parses u) eqn:Hurl.
    + left. exists t, u. unfold accepted. by rewrite Hkey.
    + right. intros t' u' (_ & Hu' & _ & Hurl'). congruence.
Qed.

(** *** The Mongoose model *)

Lemma Link_create_Returned (e : env) (key : string) (t u a : json)
    (st st' : store) (created : Link) :
  Link_create e key t u a st = (Returned created, st') →
  ∃ ts us as',
    String_cast t = Some ts ∧ String_cast u = Some us ∧ String_cast a = Some as' ∧
    key ∈ Object_keys SUBJECTS ∧
    (Some (new_ObjectId e) ∉ _id <$> collection st) ∧
    created = {| _id := Some (new_ObjectId e); subjectKey := key;
                 title := JStr ts; url := JStr us; addedBy := JStr as';
                 addedAt := Date_now e |} ∧
    st' = {| file := file st; collection := collection st ++ [created] |}.
Proof.
  unfold Link_create. intros Hcreate.
  destruct (String_cast t) as [ts|]; [|done].
  destruct (String_cast u) as [us|]; [|done].
  destruct (String_cast a) as [as'|]; [|done].
  case_bool_decide as Hvalid; [|done]. case_bool_decide as Hdup; [done|].
  injection Hcreate as <- <-. exists ts, us, as'.
  destruct Hvalid as (Hkey & _ & _). by repeat split.
Qed.

Lemma Link_create_Thrown (e : env) (key : string) (t u a : json)
    (st st' : store) (error : string) :
  Link_create e key t u a st = (Thrown error, st') → st' = st.
Proof.
  unfold Link_create. intros Hcreate. repeat case_match; congruence.
Qed.

Lemma insert_sorted_split (l : Link) (sorted : list Link) :
  ∃ before after,
    sorted = before ++ after ∧ insert_sorted l sorted = before ++ l :: after.
Proof.
  induction sorted as [|l' rest (before & after & Hrest & Hins)]; simpl.
  - by exists [], [].
  - destruct (addedAt l <? addedAt l').
    + by exists [], (l' :: rest).
    + exists (l' :: before), after. simpl. by rewrite Hins, <- Hrest.
Qed.

Lemma sort_addedAt_snoc (ls : list Link) (l : Link) :
  sort_addedAt (ls ++ [l]) = insert_sorted l (sort_addedAt ls).
Proof. unfold sort_addedAt. by rewrite foldl_snoc. Qed.

Lemma documents_of_created (key' : string) (st : store) (created : Link) :
  documents_of key'
    {| file := file st; collection := collection st ++ [created] |}
  = documents_of key' st ++ (if decide (subjectKey created = key') then [created] else []).
Proof.
  unfold documents_of. simpl. by rewrite filter_app.
Qed.

(** *** The data file after a push *)

Lemma links_or_empty_with_links (data : gmap string SubjectEntry)
    (key : string) (entry : SubjectEntry) (ls : list Link) :
  data !! key = Some entry → links_or_empty (with_links data key ls) key = ls.
Proof.
  intros Hentry. unfold links_or_empty, with_links.
  by rewrite lookup_alter_eq, Hentry.
Qed.

Lemma links_or_empty_with_links_ne (data : gmap string SubjectEntry)
    (key key' : string) (ls : list Link) :
  key ≠ key' →
  links_or_empty (with_links data key ls) key' = links_or_empty data key'.
Proof.
  intros Hne. unfold links_or_empty, with_links. by rewrite lookup_alter_ne.
Qed.

Lemma links_or_empty_links (data : gmap string SubjectEntry) (key : string)
    (ls : list Link) :
  data !! key ≫= links = Some ls → links_or_empty data key = ls.
Proof.
  unfold links_or_empty. destruct (data !! key) as [entry|]; simpl; [|done].
  by intros ->.
Qed.

(** *** A created link, backend by backend *)

Lemma addLink_201_file (e : env) (key : string) (body : option json) (st : store) :
  USE_DB = false → status (addLink e key body st).1 = 201 →
  ∃ t u ls,
    accepted key body t u ∧ data_of st !! key ≫= links = Some ls ∧
    addLink e key body st =
      ({| status := 201;
          body := JsonLink (newLink e key t u (field body "addedBy")) |},
       {| file := Some (with_links (data_of st) key
                          (ls ++ [newLink e key t u (field body "addedBy")]));
          collection := collection st |}).
Proof.
  intros Hfile Hstatus.
  destruct (addLink_201_accepted e key body st Hstatus) as (t & u & Haccepted).
  exists t, u. rewrite (addLink_file e key body t u st Hfile Haccepted) in *.
  destruct (data_of st !! key ≫= links) as [ls|]; [|done]. by exists ls.
Qed.

Lemma addLink_201_db (e : env) (key : string) (body : option json) (st : store) :
  USE_DB = true → status (addLink e key body st).1 = 201 →
  ∃ t u ts us as',
    accepted key body t u ∧
    String_cast t = Some ts ∧ String_cast u = Some us ∧
    String_cast (or_else (field body "addedBy") (JStr "admin")) = Some as' ∧
    key ∈ Object_keys SUBJECTS ∧
    (Some (new_ObjectId e) ∉ _id <$> collection st) ∧
    let created :=
      {| _id := Some (new_ObjectId e); subjectKey := key; title := JStr ts;
         url := JStr us; addedBy := JStr as'; addedAt := Date_now e |} in
    addLink e key body st =
      ({| status := 201; body := JsonLink created |},
       {| file := file st; collection := collection st ++ [created] |}).
Proof.
  intros Hdb Hstatus.
  destruct (addLink_201_accepted e key body st Hstatus) as (t & u & Haccepted).
  exists t, u. rewrite (addLink_db e key body t u st Hdb Haccepted) in *.
  destruct (Link_create _ _ _ _ _ st) as [[created|error] st'] eqn:Hcreate; [|done].
  apply Link_create_Returned in Hcreate
    as (ts & us & as' & Ht & Hu & Ha & Hkey & Hfresh & -> & ->).
  by exists ts, us, as'.
Qed.

(** Adding under one subject leaves the listing of every other subject as it
    was, whatever the request and its outcome. *)
Lemma addLink_other_subject (e : env) (key key' : string) (body : option json)
    (st : store) :
  key ≠ key' → listing key' (addLink e key body st).2 = listing key' st.
Proof.
  intros Hne. destruct (accepted_or_refused key body) as [(t & u & Hacc)|Hrefused];
    [|by destruct (addLink_refused e key body st Hrefused) as [_ ->]].
  unfold listing. destruct USE_DB eqn:Hdb.
  - rewrite (addLink_db e key body t u st Hdb Hacc).
    destruct (Link_create _ _ _ _ _ st) as [[created|error] st'] eqn:Hcreate.
    + apply Link_create_Returned in Hcreate
        as (ts & us & as' & _ & _ & _ & _ & _ & -> & ->).
      simpl. rewrite documents_of_created. simpl.
      rewrite decide_False by done. by rewrite app_nil_r.
    + by apply Link_create_Thrown in Hcreate as ->.
  - rewrite (addLink_file e key body t u st Hdb Hacc).
    destruct (data_of st !! key ≫= links) as [ls|]; [|done].
    cbn [snd]. rewrite data_of_written. by apply links_or_empty_with_links_ne.
Qed.

(** *** Deleting *)

Lemma deleteLink_file (key id : string) (st : store) :
  USE_DB = false → get SUBJECTS key ≠ Absent →
  deleteLink key id st =
    match findIndex_id id (links_or_empty (data_of st) key) with
    | Some (idx, removed) =>
        ({| status := 200; body := JsonLink removed |},
         {| file := Some (with_links (data_of st) key
                            (delete idx (links_or_empty (data_of st) key)));
            collection := collection st |})
    | None => (json_error 404 "Link not found", ensured st)
    end.
Proof.
  intros Hfile Hkey. unfold deleteLink, try_catch. rewrite Hfile.
  destruct (get SUBJECTS key); [| |done];
    (unfold bind; rewrite readJsonData_eq;
     by destruct (findIndex_id _ _) as [[idx removed]|]).
Qed.

Lemma deleteLink_db (key id : string) (st : store) :
  USE_DB = true → get SUBJECTS key ≠ Absent →
  deleteLink key id st =
    match castObjectId id with
    | None => (json_error 500 "Failed to delete link", st)
    | Some oid =>
        match list_find (λ l, _id l = Some oid ∧ subjectKey l = key) (collection st) with
        | Some (idx, deleted) =>
            ({| status := 200; body := JsonLink deleted |},
             {| file := file st; collection := delete idx (collection st) |})
        | None => (json_error 404 "Link not found", st)
        end
    end.
Proof.
  intros Hdb Hkey. unfold deleteLink, try_catch. rewrite Hdb.
  destruct (get SUBJECTS key); [| |done];
    (unfold bind, Link_findOneAndDelete;
     destruct (castObjectId id) as [oid|]; [|done];
     by destruct (list_find _ _) as [[idx deleted]|]).
Qed.

(** *** The file variant, step by step *)

Lemma serve_file_step (e : env) (req : request) (st : store) :
  USE_DB = false → file_step e (data_of st) req (data_of (serve e req st).2).
Proof.
  intros Hfile. destruct req as [|key|key body|key id]; simpl.
  - rewrite getAllSubjects_file by done. constructor.
  - destruct (get SUBJECTS key) as [subject| |] eqn:Hkey.
    + rewrite getSubjectLinks_file by (done || by rewrite Hkey). constructor.
    + rewrite getSubjectLinks_file by (done || by rewrite Hkey). constructor.
    + rewrite getSubjectLinks_unknown by done. constructor.
  - destruct (accepted_or_refused key body) as [(t & u & Hacc)|Hrefused].
    + rewrite (addLink_file e key body t u st Hfile Hacc).
      destruct (data_of st !! key ≫= links) as [ls|] eqn:Hls.
      * cbn [snd]. rewrite data_of_written. by apply step_push.
      * constructor.
    + destruct (addLink_refused e key body st Hrefused) as [_ ->]. constructor.
  - destruct (get SUBJECTS key) as [subject| |] eqn:Hkey;
      [| |rewrite deleteLink_unknown by done; constructor].
    all: rewrite deleteLink_file by (done || by rewrite Hkey).
    all: destruct (findIndex_id id _) as [[idx removed]|] eqn:Hfind;
      [|constructor].
    all: cbn [snd]; rewrite data_of_written.
    all: unfold links_or_empty in *.
    all: destruct (data_of st !! key) as [entry|] eqn:Hentry; [|done].
    all: destruct (links entry) as [ls|] eqn:Hls; [|done].
    all: apply (step_splice e _ key id idx removed ls); [|done].
    all: by rewrite Hentry.
Qed.

Lemma links_or_empty_updated (data : gmap string SubjectEntry)
    (key key' : string) (ls ls' : list Link) :
  data !! key ≫= links = Some ls →
  links_or_empty (with_links data key ls') key'
    = if decide (key' = key) then ls' else links_or_empty data key'.
Proof.
  intros Hls. destruct (decide (key' = key)) as [->|Hne].
  - destruct (data !! key) as [entry|] eqn:Hentry; [|done].
    by apply (links_or_empty_with_links _ _ entry).
  - by apply links_or_empty_with_links_ne.
Qed.

End Handlers.

(** ** Unknown subject keys *)

(** C1 (as amended).  For a key that is neither in the registry nor the name
    of a property the registry object inherits from [Object.prototype],
    [getSubjectLinks] and [deleteLink] answer 404 "Subject not found";
    [addLink] answers the same 404 when the body carries a truthy title and a
    truthy url, and 400 "Missing title or url" otherwise.  In every case the
    store is left exactly as it was. *)
Theorem unknown_subject_rejected `{Platform} (e : env) (key id : string)
    (body : option json) (st : store) :
  key ∉ Object_keys SUBJECTS → key ∉ Object_prototype →
  getSubjectLinks key st = (json_error 404 "Subject not found", st) ∧
  deleteLink key id st = (json_error 404 "Subject not found", st) ∧
  addLink e key body st =
    (if truthy (field body "title") && truthy (field body "url")
     then json_error 404 "Subject not found"
     else json_error 400 "Missing title or url",
     st).
Proof.
  intros Hkey Hproto. pose proof (get_unknown key Hkey Hproto) as Habsent.
  split; [by apply getSubjectLinks_unknown|].
  split; [by apply deleteLink_unknown|].
  destruct (truthy (field body "title")) eqn:Ht; simpl.
  - destruct (truthy (field body "url")) eqn:Hu.
    + destruct (field body "title") as [t|] eqn:Hft; [|done].
      destruct (field body "url") as [u|] eqn:Hfu; [|done].
      apply (addLink_unknown e key body t u); [| |done].
      * rewrite Hft. by apply present_Some.
      * rewrite Hfu. by apply present_Some.
    + apply addLink_missing. right. by apply present_None.
  - apply addLink_missing. left. by apply present_None.
Qed.

(** ** Rejected URLs *)

(** C6.  For a known subject, a body with a truthy title and a url string
    that [new URL] rejects is answered 400, the store is left as it was, and
    so a following [getSubjectLinks] answers what it answered before. *)
Theorem invalid_url_rejected `{Platform} (e : env) (key : string)
    (body : option json) (u : string) (st : store) :
  key ∈ Object_keys SUBJECTS →
  truthy (field body "title") = true →
  field body "url" = Some (JStr u) →
  URL_parses (JStr u) = false →
  status (addLink e key body st).1 = 400 ∧
  (addLink e key body st).2 = st ∧
  getSubjectLinks key (addLink e key body st).2 = getSubjectLinks key st.
Proof.
  intros Hkey Ht Hu Hurl.
  assert (status (addLink e key body st).1 = 400 ∧ (addLink e key body st).2 = st)
    as [Hstatus Hstore].
  { destruct (field body "title") as [t|] eqn:Hft; [|done].
    destruct (truthy (Some (JStr u))) eqn:Htruthy.
    - rewrite (addLink_invalid_url e key body t (JStr u)); [done| | | |done].
      + rewrite Hft. by apply present_Some.
      + rewrite Hu. by apply present_Some.
      + by apply get_known_not_Absent.
    - rewrite addLink_missing; [done|]. right. rewrite Hu. by apply present_None. }
  by rewrite Hstore.
Qed.

(** ** Adding a link *)

(** C2.  For a known subject and any store, when a request carrying title
    "T", url "https://example.com" and no addedBy is answered 201, listing
    the subject afterwards gives the listing from before with exactly one
    element inserted (at the end in the file variant).  That element is the
    record echoed in the 201; its title and url are the ones sent, its
    addedBy is "admin", and its id was assigned by this very request: the
    identifier the driver generated, or the base-36 rendering of the clock
    reading. *)
Theorem add_then_list `{Platform} (e : env) (key : string) (body : option json)
    (st : store) :
  key ∈ Object_keys SUBJECTS →
  field body "title" = Some (JStr "T") →
  field body "url" = Some (JStr "https://example.com") →
  field body "addedBy" = undefined →
  status (addLink e key body st).1 = 201 →
  ∃ before after new,
    (getSubjectLinks key st).1 =
      {| status := 200; body := JsonLinks (before ++ after) |} ∧
    (getSubjectLinks key (addLink e key body st).2).1 =
      {| status := 200; body := JsonLinks (before ++ new :: after) |} ∧
    (USE_DB = false → after = []) ∧
    (addLink e key body st).1 = {| status := 201; body := JsonLink new |} ∧
    subjectKey new = key ∧
    title new = JStr "T" ∧ url new = JStr "https://example.com" ∧
    addedBy new = JStr "admin" ∧
    _id new = Some (if USE_DB then new_ObjectId e
                    else Number_toString 36 (Date_now e)).
Proof.
  intros Hkey Htitle Hurl HaddedBy Hstatus.
  pose proof (get_known_not_Absent key Hkey) as Hget.
  rewrite !getSubjectLinks_listing by done. unfold listing.
  destruct USE_DB eqn:Hdb.
  - destruct (addLink_201_db e key body st Hdb Hstatus)
      as (t & u & ts & us & as' & (Ht & Hu & _) & Hts & Hus & Has & _ & _ & ->).
    rewrite Htitle in Ht. rewrite Hurl in Hu. rewrite HaddedBy in Has.
    apply present_Some in Ht as [[= <-] _]. apply present_Some in Hu as [[= <-] _].
    injection Hts as <-. injection Hus as <-. injection Has as <-.
    cbn [fst snd]. rewrite documents_of_created. cbn [subjectKey].
    rewrite decide_True by done. rewrite sort_addedAt_snoc.
    match goal with |- context [insert_sorted ?l ?sorted] =>
      destruct (insert_sorted_split l sorted) as (before & after & -> & ->) end.
    exists before, after. eexists. by repeat split.
  - destruct (addLink_201_file e key body st Hdb Hstatus)
      as (t & u & ls & (Ht & Hu & _) & Hls & ->).
    rewrite Htitle in Ht. rewrite Hurl in Hu. rewrite HaddedBy.
    apply present_Some in Ht as [[= <-] _]. apply present_Some in Hu as [[= <-] _].
    cbn [fst snd]. rewrite data_of_written.
    rewrite (links_or_empty_links _ _ ls Hls).
    destruct (data_of st !! key) as [entry|] eqn:Hentry; [|done].
    rewrite (links_or_empty_with_links _ _ entry) by done.
    exists ls, []. eexists. rewrite app_nil_r. by repeat split.
Qed.

(** C8.  For two distinct known subjects, after a request under the first is
    answered 201, [getSubjectLinks] answers for the second exactly what it
    answered before. *)
Theorem add_isolated `{Platform} (e : env) (k1 k2 : string) (body : option json)
    (st : store) :
  k1 ∈ Object_keys SUBJECTS → k2 ∈ Object_keys SUBJECTS → k1 ≠ k2 →
  status (addLink e k1 body st).1 = 201 →
  (getSubjectLinks k2 (addLink e k1 body st).2).1 = (getSubjectLinks k2 st).1.
Proof.
  intros _ Hk2 Hne _. pose proof (get_known_not_Absent k2 Hk2) as Hget.
  rewrite !getSubjectLinks_listing by done.
  by rewrite addLink_other_subject.
Qed.

(** C9.  In both backends, a request whose addedBy is falsy (omitted, null,
    false, 0 or the empty string) and that is answered 201 stores and echoes
    a record whose addedBy is "admin". *)
Theorem falsy_addedBy_is_admin `{Platform} (e : env) (key : string)
    (body : option json) (st : store) :
  truthy (field body "addedBy") = false →
  status (addLink e key body st).1 = 201 →
  ∃ new,
    (addLink e key body st).1 = {| status := 201; body := JsonLink new |} ∧
    addedBy new = JStr "admin" ∧
    stored_under key (addLink e key body st).2 = stored_under key st ++ [new].
Proof.
  intros Hfalsy Hstatus.
  assert (or_else (field body "addedBy") (JStr "admin") = JStr "admin") as Hadmin.
  { unfold or_else. by rewrite (proj2 (present_None _) Hfalsy). }
  unfold stored_under. destruct USE_DB eqn:Hdb.
  - destruct (addLink_201_db e key body st Hdb Hstatus)
      as (t & u & ts & us & as' & _ & _ & _ & Has & _ & _ & ->).
    rewrite Hadmin in Has. injection Has as <-.
    eexists. split; [done|]. split; [done|].
    cbn [snd]. rewrite documents_of_created. cbn [subjectKey].
    by rewrite decide_True.
  - destruct (addLink_201_file e key body st Hdb Hstatus)
      as (t & u & ls & _ & Hls & ->).
    eexists. split; [done|]. split; [cbn [newLink addedBy]; by rewrite Hadmin|].
    cbn [snd]. rewrite data_of_written.
    rewrite (links_or_empty_links _ _ ls Hls).
    destruct (data_of st !! key) as [entry|] eqn:Hentry; [|done].
    by rewrite (links_or_empty_with_links _ _ entry).
Qed.

(** ** A data file without the entry of a known subject *)

(** C10.  In the file variant, when [data.json] has no entry for a known
    subject, [getSubjectLinks] answers 200 with the empty list and
    [getAllSubjects] answers 200 with an empty list under that subject, but a
    request to add a link there that passes validation is answered 500
    "Failed to add link"; none of the three changes the file. *)
Theorem missing_entry_read_not_written `{Platform} (e : env) (key : string)
    (body : option json) (t u : json) (data : gmap string SubjectEntry)
    (st : store) :
  USE_DB = false → file st = Some data →
  key ∈ Object_keys SUBJECTS → data !! key = None →
  accepted key body t u →
  getSubjectLinks key st = ({| status := 200; body := JsonLinks [] |}, st) ∧
  (∃ result,
     getAllSubjects st = ({| status := 200; body := JsonSubjects result |}, st) ∧
     subject_links <$> result !! key = Some []) ∧
  addLink e key body st = (json_error 500 "Failed to add link", st).
Proof.
  intros Hfile Hdata Hkey Hmissing Haccepted.
  pose proof (ensured_exists st data Hdata) as Hensured.
  assert (data_of st = data) as Hdata_of by (unfold data_of; by rewrite Hdata).
  assert (links_or_empty (data_of st) key = []) as Hempty.
  { unfold links_or_empty. by rewrite Hdata_of, Hmissing. }
  split; [|split].
  - rewrite getSubjectLinks_file by (done || by apply get_known_not_Absent).
    by rewrite Hensured, Hempty.
  - rewrite getAllSubjects_file by done. rewrite Hensured. eexists. split; [done|].
    destruct (assoc_Some key SUBJECTS Hkey) as (subject & _ & Hin).
    rewrite (lookup_foldl_insert
      (λ k s, {| subject_name := name s;
                 subject_links := links_or_empty (data_of st) k |})
      SUBJECTS ∅ key subject SUBJECTS_NoDup Hin).
    simpl. by rewrite Hempty.
  - rewrite (addLink_file e key body t u st Hfile Haccepted).
    by rewrite Hdata_of, Hmissing, Hensured.
Qed.

(** ** Invariants of the file variant *)

Lemma defaultJsonData_empty (key : string) :
  links_or_empty defaultJsonData key = [].
Proof.
  assert (map_Forall (λ _ entry, links entry = Some []) defaultJsonData) as Hall.
  { unfold defaultJsonData. simpl.
    repeat (apply map_Forall_insert_2; [done|]). apply map_Forall_empty. }
  unfold links_or_empty.
  destruct (defaultJsonData !! key) as [entry|] eqn:Hentry; [|done].
  by rewrite (Hall key entry Hentry).
Qed.

Lemma data_of_start `{Platform} : data_of (start blank) = defaultJsonData.
Proof. unfold start. by destruct USE_DB. Qed.

Lemma StronglySorted_sublist {A : Type} (R : relation A) (l k : list A) :
  l `sublist_of` k → StronglySorted R k → StronglySorted R l.
Proof.
  induction 1 as [|x l k Hsub IH|x l k Hsub IH]; intros Hsorted.
  - done.
  - apply StronglySorted_cons in Hsorted as [Hx Hk].
    apply StronglySorted_cons. split; [|by apply IH].
    rewrite Forall_forall in Hx |- *. intros y Hy. apply Hx.
    by apply (elem_of_sublist l k).
  - apply StronglySorted_cons in Hsorted as [_ Hk]. by apply IH.
Qed.

Section FileInvariants.
Context `{Platform}.

(** A link minted from a tick not used so far differs in id from every
    stored link. *)
Lemma newLink_id_fresh (ticks : list Z) (data : gmap string SubjectEntry)
    (e : env) (key key' : string) (t u : json) (ab : option json) (l : Link) :
  minted ticks data → Date_now e ∉ ticks → l ∈ links_or_empty data key' →
  _id l ≠ _id (newLink e key t u ab).
Proof.
  intros Hminted Hfresh Hl. destruct (Hminted key' l Hl) as (tick & Htick & Hid).
  rewrite Hid. simpl. intros [= Heq]. apply Number_toString_inj in Heq; [|lia].
  by subst.
Qed.

Lemma minted_weaken (ticks : list Z) (tick : Z) (data : gmap string SubjectEntry) :
  minted ticks data → minted (tick :: ticks) data.
Proof.
  intros Hminted key l Hl. destruct (Hminted key l Hl) as (t & Ht & Hid).
  exists t. split; [|done]. apply elem_of_cons. by right.
Qed.

Lemma file_step_ids (e : env) (req : request)
    (data data' : gmap string SubjectEntry) (ticks : list Z) :
  file_step e data req data' →
  (∀ tick, tick ∈ post_ticks [(e, req)] → tick ∉ ticks) →
  minted ticks data → ids_unique data →
  minted (post_ticks [(e, req)] ++ ticks) data' ∧ ids_unique data'.
Proof.
  intros Hstep Hfresh Hminted [Hwithin Hacross].
  destruct Hstep as [req|key body t u ls Hacc Hls|key id idx removed ls Hls Hfind].
  - split; [|done]. destruct req; simpl; try done. by apply minted_weaken.
  - assert (Date_now e ∉ ticks) as Htick.
    { apply Hfresh. simpl. by apply list_elem_of_singleton. }
    pose proof (links_or_empty_links _ _ _ Hls) as Hold.
    set (new := newLink e key t u (field body "addedBy")).
    split; [|split].
    + intros k l. rewrite (links_or_empty_updated _ _ _ ls) by done.
      simpl. destruct (decide (k = key)) as [->|Hk].
      * intros [Hl| ->%list_elem_of_singleton]%elem_of_app.
        -- apply (minted_weaken _ _ _ Hminted key). by rewrite Hold.
        -- exists (Date_now e). split; [|done]. apply elem_of_cons. by left.
      * intros Hl. by apply (minted_weaken _ _ _ Hminted k).
    + intros k. rewrite (links_or_empty_updated _ _ _ ls) by done.
      destruct (decide (k = key)) as [->|Hk]; [|apply Hwithin].
      rewrite fmap_app. apply NoDup_app. split; [|split].
      * specialize (Hwithin key). by rewrite Hold in Hwithin.
      * intros id (l & -> & Hl)%list_elem_of_fmap Heq%list_elem_of_singleton.
        revert Heq. apply (newLink_id_fresh ticks data e key key); [done..|].
        by rewrite Hold.
      * apply NoDup_singleton.
    + intros k1 k2 l1 l2 Hne.
      rewrite !(links_or_empty_updated _ _ _ ls) by done.
      destruct (decide (k1 = key)) as [->|Hk1], (decide (k2 = key)) as [->|Hk2];
        try done.
      * intros [Hl1| ->%list_elem_of_singleton]%elem_of_app Hl2.
        -- apply (Hacross key k2); [done| |done]. by rewrite Hold.
        -- intros Heq. by apply (newLink_id_fresh ticks data e key k2 t u
                                   (field body "addedBy") l2).
      * intros Hl1 [Hl2| ->%list_elem_of_singleton]%elem_of_app.
        -- apply (Hacross k1 key); [done..|]. by rewrite Hold.
        -- by apply (newLink_id_fresh ticks data e key k1 t u
                       (field body "addedBy") l1).
      * by apply Hacross.
  - pose proof (links_or_empty_links _ _ _ Hls) as Hold. simpl.
    split; [|split].
    + intros k l. rewrite (links_or_empty_updated _ _ _ ls) by done.
      destruct (decide (k = key)) as [->|Hk]; [|apply Hminted].
      intros Hl%list_elem_of_delete_inv. apply (Hminted key). by rewrite Hold.
    + intros k. rewrite (links_or_empty_updated _ _ _ ls) by done.
      destruct (decide (k = key)) as [->|Hk]; [|apply Hwithin].
      rewrite list_fmap_delete. eapply sublist_NoDup; [|apply sublist_delete].
      specialize (Hwithin key). by rewrite Hold in Hwithin.
    + intros k1 k2 l1 l2 Hne.
      rewrite !(links_or_empty_updated _ _ _ ls) by done.
      destruct (decide (k1 = key)) as [->|Hk1], (decide (k2 = key)) as [->|Hk2];
        try done.
      * intros Hl1%list_elem_of_delete_inv Hl2.
        apply (Hacross key k2); [done| |done]. by rewrite Hold.
      * intros Hl1 Hl2%list_elem_of_delete_inv.
        apply (Hacross k1 key); [done..|]. by rewrite Hold.
      * by apply Hacross.
Qed.

Lemma post_ticks_cons (step : env * request) (rest : list (env * request)) :
  post_ticks (step :: rest) = post_ticks [step] ++ post_ticks rest.
Proof. destruct step as [e []]; reflexivity. Qed.

Lemma run_ids_unique (trace : list (env * request)) (st : store) (ticks : list Z) :
  USE_DB = false →
  minted ticks (data_of st) → ids_unique (data_of st) →
  NoDup (post_ticks trace) →
  (∀ tick, tick ∈ post_ticks trace → tick ∉ ticks) →
  ids_unique (data_of (run trace st)).
Proof.
  intros Hfile. revert st ticks.
  induction trace as [|[e req] rest IH];
    intros st ticks Hminted Hunique Hnodup Hfresh; [done|].
  rewrite post_ticks_cons in Hnodup, Hfresh.
  apply NoDup_app in Hnodup as (_ & Hdisjoint & Hnodup).
  destruct (file_step_ids e req _ _ ticks (serve_file_step e req st Hfile))
    as [Hminted' Hunique']; [|done..|].
  { intros tick Htick. apply Hfresh. apply elem_of_app. by left. }
  simpl. apply (IH _ (post_ticks [(e, req)] ++ ticks)); [done..|].
  intros tick Htick [Hhead|Hticks]%elem_of_app.
  - by apply (Hdisjoint tick).
  - apply (Hfresh tick); [|done]. apply elem_of_app. by right.
Qed.

Lemma file_step_sorted (e : env) (req : request)
    (data data' : gmap string SubjectEntry) (bound : Z) :
  file_step e data req data' → bound ≤ new_Date e →
  sorted_upto bound data → sorted_upto (new_Date e) data'.
Proof.
  intros Hstep Hbound Hsorted.
  assert (∀ k, Forall (λ l, addedAt l ≤ new_Date e) (links_or_empty data k))
    as Hlater.
  { intros k. eapply Forall_impl; [apply Hsorted|]. simpl. intros l Hl. lia. }
  destruct Hstep as [req|key body t u ls Hacc Hls|key id idx removed ls Hls Hfind].
  - intros k. split; [apply Hsorted|apply Hlater].
  - pose proof (links_or_empty_links _ _ _ Hls) as Hold.
    intros k. rewrite (links_or_empty_updated _ _ _ ls) by done.
    destruct (decide (k = key)) as [->|Hk]; [|split; [apply Hsorted|apply Hlater]].
    specialize (Hsorted key). specialize (Hlater key).
    rewrite Hold in Hsorted, Hlater. destruct Hsorted as [Hsorted _].
    split.
    + rewrite fmap_app. apply StronglySorted_app. split; [|split].
      * intros x1 x2 (l1 & -> & Hl1)%list_elem_of_fmap ->%list_elem_of_singleton.
        simpl. by apply (proj1 (Forall_forall _ _) Hlater).
      * done.
      * repeat constructor.
    + apply Forall_app. split; [done|]. by repeat constructor.
  - pose proof (links_or_empty_links _ _ _ Hls) as Hold.
    intros k. rewrite (links_or_empty_updated _ _ _ ls) by done.
    destruct (decide (k = key)) as [->|Hk]; [|split; [apply Hsorted|apply Hlater]].
    specialize (Hsorted key). specialize (Hlater key).
    rewrite Hold in Hsorted, Hlater. destruct Hsorted as [Hsorted _].
    split.
    + rewrite list_fmap_delete.
      eapply StronglySorted_sublist; [apply sublist_delete|done].
    + rewrite Forall_forall in Hlater |- *.
      intros l Hl%list_elem_of_delete_inv. by apply Hlater.
Qed.

Lemma run_sorted (trace : list (env * request)) (st : store) (bound : Z) :
  USE_DB = false →
  sorted_upto bound (data_of st) →
  Forall (λ step, bound ≤ new_Date step.1) trace →
  StronglySorted Z.le ((λ step, new_Date step.1) <$> trace) →
  ∃ bound', sorted_upto bound' (data_of (run trace st)).
Proof.
  intros Hfile. revert st bound.
  induction trace as [|[e req] rest IH]; intros st bound Hsorted Hbound Hclock.
  - by exists bound.
  - apply Forall_cons in Hbound as [Hbound _].
    rewrite fmap_cons in Hclock.
    apply StronglySorted_cons in Hclock as [Hnext Hclock].
    simpl. apply (IH _ (new_Date e)); [| |done].
    + by apply (file_step_sorted e req (data_of st) _ bound);
        [apply serve_file_step| |].
    + exact (proj1 (Forall_fmap _ _ _) Hnext).
Qed.

End FileInvariants.

(** ** The Mongoose sort *)

Lemma insert_sorted_ascending (l : Link) (sorted : list Link) :
  ascending sorted → ascending (insert_sorted l sorted).
Proof.
  unfold ascending.
  induction sorted as [|l' rest IH]; intros Hsorted; simpl.
  - repeat constructor.
  - destruct (Z.ltb_spec (addedAt l) (addedAt l')) as [Hlt|Hge].
    + rewrite !fmap_cons. constructor; [done|]. constructor. lia.
    + rewrite fmap_cons in Hsorted |- *.
      apply Sorted_inv in Hsorted as [Hrest Hhead].
      constructor; [by apply IH|].
      destruct rest as [|l'' rest]; simpl; [by constructor|].
      destruct (addedAt l <? addedAt l''); rewrite fmap_cons; constructor;
        [done|]. rewrite fmap_cons in Hhead. by apply HdRel_inv in Hhead.
Qed.

Lemma sort_addedAt_ascending (ls : list Link) : ascending (sort_addedAt ls).
Proof.
  unfold sort_addedAt.
  assert (∀ sorted, ascending sorted →
            ascending (foldl (λ sorted l, insert_sorted l sorted) sorted ls))
    as Hfold.
  { induction ls as [|l ls IH]; intros sorted Hsorted; simpl; [done|].
    apply IH. by apply insert_sorted_ascending. }
  apply Hfold. constructor.
Qed.

Lemma insert_sorted_Permutation (l : Link) (sorted : list Link) :
  insert_sorted l sorted ≡ₚ l :: sorted.
Proof.
  induction sorted as [|l' rest IH]; simpl; [done|].
  destruct (addedAt l <? addedAt l'); [done|].
  rewrite IH. apply Permutation_swap.
Qed.

Lemma sort_addedAt_Permutation (ls : list Link) : sort_addedAt ls ≡ₚ ls.
Proof.
  unfold sort_addedAt.
  assert (∀ sorted,
            foldl (λ sorted l, insert_sorted l sorted) sorted ls ≡ₚ sorted ++ ls)
    as Hfold.
  { induction ls as [|l ls IH]; intros sorted; simpl.
    - by rewrite app_nil_r.
    - rewrite IH, insert_sorted_Permutation. simpl. apply Permutation_middle. }
  apply Hfold.
Qed.

(** ** Listing every subject *)

(** C5.  [getAllSubjects] always answers 200 with an object that has, for
    every subject of the registry, an entry holding the subject's display
    name and the very list [getSubjectLinks] answers for it.  That list is
    read off the store: in the database variant it holds exactly the
    documents of the collection filed under the subject, in ascending
    [addedAt] order; in the file variant it is the array [data.json] has
    under the subject, and the empty list when the file, the entry or its
    array is missing.  So a subject without links is shown with an empty
    list. *)
Theorem getAllSubjects_complete `{Platform} (st : store) :
  ∃ result,
    (getAllSubjects st).1 = {| status := 200; body := JsonSubjects result |} ∧
    ∀ key subject, (key, subject) ∈ SUBJECTS →
      ∃ ls,
        result !! key = Some {| subject_name := name subject; subject_links := ls |} ∧
        (getSubjectLinks key st).1 = {| status := 200; body := JsonLinks ls |} ∧
        if USE_DB then
          ls ≡ₚ filter (λ l, subjectKey l = key) (collection st) ∧ ascending ls
        else
          ls = match file st with
               | Some data =>
                   match data !! key with
                   | Some entry =>
                       match links entry with
                       | Some stored => stored
                       | None => []
                       end
                   | None => []
                   end
               | None => []
               end.
Proof.
  destruct USE_DB eqn:Hdb.
  - rewrite getAllSubjects_db by done. eexists. split; [done|].
    intros key subject Hin. exists (sort_addedAt (documents_of key st)).
    split; [|split].
    + by rewrite (lookup_foldl_insert
        (λ k s, {| subject_name := name s;
                   subject_links := sort_addedAt (documents_of k st) |})
        SUBJECTS ∅ key subject SUBJECTS_NoDup Hin).
    + rewrite getSubjectLinks_db; [done..|]. apply get_known_not_Absent.
      apply list_elem_of_fmap. by exists (key, subject).
    + split; [apply sort_addedAt_Permutation|apply sort_addedAt_ascending].
  - rewrite getAllSubjects_file by done. eexists. split; [done|].
    intros key subject Hin. exists (links_or_empty (data_of st) key).
    split; [|split].
    + by rewrite (lookup_foldl_insert
        (λ k s, {| subject_name := name s;
                   subject_links := links_or_empty (data_of st) k |})
        SUBJECTS ∅ key subject SUBJECTS_NoDup Hin).
    + rewrite getSubjectLinks_file; [done..|]. apply get_known_not_Absent.
      apply list_elem_of_fmap. by exists (key, subject).
    + unfold data_of. destruct (file st) as [data|]; simpl.
      * unfold links_or_empty. destruct (data !! key) as [entry|]; [|done].
        by destruct (links entry).
      * apply defaultJsonData_empty.
Qed.

(** ** Identifiers in the file variant *)

(** C3 (as amended).  In the file variant, after any sequence of requests
    served from a first deployment in which no two add requests read the
    same [Date.now()] value, no two links of the data file share an id,
    within a subject or across subjects. *)
Theorem ids_unique_distinct_ticks `{Platform} (trace : list (env * request)) :
  USE_DB = false → NoDup (post_ticks trace) →
  ids_unique (data_of (run trace (start blank))).
Proof.
  intros Hfile Hticks. apply (run_ids_unique trace _ []); [done| | |done|].
  - intros key l. rewrite data_of_start, defaultJsonData_empty.
    by intros ?%elem_of_nil.
  - rewrite data_of_start. split.
    + intros key. rewrite defaultJsonData_empty. constructor.
    + intros k1 k2 l1 l2 _. rewrite defaultJsonData_empty.
      by intros ?%elem_of_nil.
  - intros tick _. apply not_elem_of_nil.
Qed.

(** ** Listing order *)

(** C4 (as amended).  For a known subject and any run from a first
    deployment, [getSubjectLinks] answers 200 with a list in ascending
    [addedAt] order: always in the database variant, and in the file variant
    whenever the clock did not run backwards during the run. *)
Theorem listing_ascending `{Platform} (trace : list (env * request))
    (key : string) :
  (USE_DB = false → steady_clock trace) →
  key ∈ Object_keys SUBJECTS →
  ∃ ls,
    (getSubjectLinks key (run trace (start blank))).1 =
      {| status := 200; body := JsonLinks ls |} ∧
    ascending ls.
Proof.
  intros Hclock Hkey. pose proof (get_known_not_Absent key Hkey) as Hget.
  rewrite getSubjectLinks_listing by done. eexists. split; [done|].
  unfold listing. destruct USE_DB eqn:Hdb; [apply sort_addedAt_ascending|].
  specialize (Hclock eq_refl). apply Sorted_StronglySorted in Hclock; [|apply _].
  assert (∃ bound, sorted_upto bound (data_of (run trace (start blank))))
    as [bound Hsorted].
  { assert (∀ bound, sorted_upto bound (data_of (start blank))) as Hstart.
    { intros bound k. rewrite data_of_start, defaultJsonData_empty.
      split; constructor. }
    destruct trace as [|[e req] rest]; [by exists 0|].
    apply (run_sorted _ _ (new_Date e)); [done..| |done].
    rewrite fmap_cons in Hclock.
    apply StronglySorted_cons in Hclock as [Hnext _].
    constructor; [done|]. exact (proj1 (Forall_fmap _ _ _) Hnext). }
  apply StronglySorted_Sorted. apply Hsorted.
Qed.

(** ** Deleting by a malformed id in the database variant *)

(** C7 (the divergence).  In the database variant, for a known subject and an
    id that Mongoose cannot cast to an [ObjectId], [deleteLink] answers 500
    "Failed to delete link" instead of 404, the store being left as it
    was. *)
Theorem deleteLink_malformed_id `{Platform} (key id : string) (st : store) :
  USE_DB = true → key ∈ Object_keys SUBJECTS → castObjectId id = None →
  deleteLink key id st = (json_error 500 "Failed to delete link", st).
Proof.
  intros Hdb Hkey Hcast.
  rewrite deleteLink_db by (done || by apply get_known_not_Absent).
  by rewrite Hcast.
Qed.

(** X1.  The sibling paths: the file variant answers 404 for every id that
    matches no link of the subject, leaving the document as it was, and
    otherwise removes the first match, echoes it, and keeps the other links
    of the subject in their order and the other subjects untouched. *)
Lemma deleteLink_file_outcome `{Platform} (key id : string) (st : store) :
  USE_DB = false → key ∈ Object_keys SUBJECTS →
  (∃ idx removed,
     links_or_empty (data_of st) key !! idx = Some removed ∧
     default "" (_id removed) = id ∧
     (∀ j l, links_or_empty (data_of st) key !! j = Some l → (j < idx)%nat →
        default "" (_id l) ≠ id) ∧
     (deleteLink key id st).1 = {| status := 200; body := JsonLink removed |} ∧
     ∀ key', links_or_empty (data_of (deleteLink key id st).2) key'
             = if decide (key' = key)
               then delete idx (links_or_empty (data_of st) key)
               else links_or_empty (data_of st) key')
  ∨ (Forall (λ l, default "" (_id l) ≠ id) (links_or_empty (data_of st) key) ∧
     (deleteLink key id st).1 = json_error 404 "Link not found" ∧
     data_of (deleteLink key id st).2 = data_of st).
Proof.
  intros Hfile Hkey.
  rewrite deleteLink_file by (done || by apply get_known_not_Absent).
  destruct (findIndex_id id _) as [[idx removed]|] eqn:Hfind.
  - left. exists idx, removed.
    apply list_find_Some in Hfind as (Hidx & Hid & Hfirst).
    split; [done|]. split; [done|]. split; [done|]. split; [done|].
    intros key'. cbn [snd]. rewrite data_of_written.
    apply (links_or_empty_updated _ _ _ (links_or_empty (data_of st) key)).
    unfold links_or_empty in Hidx |- *.
    destruct (data_of st !! key) as [entry|]; [|done].
    simpl in *. destruct (links entry) as [ls|]; [done|].
    by destruct idx.
  - right. apply list_find_None in Hfind. by repeat split.
Qed.

(** X2.  With an id that casts, the database variant behaves the same way:
    it removes and echoes the first document matching both the id and the
    subject, or answers 404 and leaves the store as it was. *)
Lemma deleteLink_db_outcome `{Platform} (key id oid : string) (st : store) :
  USE_DB = true → key ∈ Object_keys SUBJECTS → castObjectId id = Some oid →
  (∃ idx deleted,
     collection st !! idx = Some deleted ∧
     _id deleted = Some oid ∧ subjectKey deleted = key ∧
     (∀ j l, collection st !! j = Some l → (j < idx)%nat →
             ¬ (_id l = Some oid ∧ subjectKey l = key)) ∧
     deleteLink key id st =
       ({| status := 200; body := JsonLink deleted |},
        {| file := file st; collection := delete idx (collection st) |}))
  ∨ (Forall (λ l, ¬ (_id l = Some oid ∧ subjectKey l = key)) (collection st) ∧
     deleteLink key id st = (json_error 404 "Link not found", st)).
Proof.
  intros Hdb Hkey Hcast.
  rewrite deleteLink_db by (done || by apply get_known_not_Absent).
  rewrite Hcast. destruct (list_find _ _) as [[idx deleted]|] eqn:Hfind.
  - left. exists idx, deleted.
    apply list_find_Some in Hfind as (Hidx & [Hid Hsub] & Hfirst).
    by repeat split.
  - right. apply list_find_None in Hfind. by split.
Qed.

(** ** Keys found on the prototype chain *)

(** A key that names a property of [Object.prototype] passes the registry
    check of [getSubjectLinks]: the answer is 200 with whatever is listed
    under it, not 404. *)
Lemma inherited_key_listed `{Platform} (key : string) (st : store) :
  key ∈ Object_prototype →
  (getSubjectLinks key st).1 =
    {| status := 200; body := JsonLinks (listing key st) |}.
Proof.
  intros Hkey. apply getSubjectLinks_listing. unfold get.
  destruct (assoc key SUBJECTS); [done|]. by rewrite bool_decide_eq_true_2.
Qed.

(** * The properties on concrete requests *)

(** Add, delete by the id echoed, list: the subject is empty again. *)
Example cn_scenario :
  let added := @addLink file_platform (at_time 1700000000000 "") "cn"
                 (link_body "Notes" "https://x.test/cn1") blank in
  let deleted := @deleteLink file_platform "cn" "loyw3v28" added.2 in
  status added.1 = 201 ∧
  status deleted.1 = 200 ∧ body deleted.1 = body added.1 ∧
  (@getSubjectLinks file_platform "cn" deleted.2).1
    = {| status := 200; body := JsonLinks [] |}.
Proof. repeat split; by vm_compute. Qed.

(** [GET /api/subjects/constructor/links] is answered 200 with the empty
    list. *)
Example constructor_listed :
  (@getSubjectLinks file_platform "constructor" blank).1
    = {| status := 200; body := JsonLinks [] |}.
Proof. by vm_compute. Qed.

(** An add request for an unregistered subject whose body has no title is
    answered 400, not 404: the body is checked before the subject. *)
Lemma unknown_subject_missing_title :
  ("biology" ∉ Object_keys SUBJECTS) ∧
  @addLink file_platform (at_time 1700000000000 "") "biology" (Some (JObj [])) blank
    = (json_error 400 "Missing title or url", blank) ∧
  status (@addLink file_platform (at_time 1700000000000 "") "biology"
            (Some (JObj [])) blank).1 ≠ 404.
Proof.
  split; [|split].
  - apply (bool_decide_unpack _). by vm_compute.
  - reflexivity.
  - by vm_compute.
Qed.

Lemma unknown_subject_rejected_witness :
  @getSubjectLinks file_platform "biology" blank
    = (json_error 404 "Subject not found", blank) ∧
  @deleteLink file_platform "biology" "loyw3v28" blank
    = (json_error 404 "Subject not found", blank) ∧
  @addLink file_platform (at_time 1700000000000 "") "biology"
      (link_body "Cells" "https://example.com/bio") blank
    = (json_error 404 "Subject not found", blank).
Proof.
  apply (@unknown_subject_rejected file_platform (at_time 1700000000000 "")
           "biology" "loyw3v28" (link_body "Cells" "https://example.com/bio") blank).
  - apply (bool_decide_unpack _). by vm_compute.
  - apply (bool_decide_unpack _). by vm_compute.
Defined.

Lemma add_then_list_witness :
  ∃ before after new,
    (@getSubjectLinks file_platform "toc" blank).1 =
      {| status := 200; body := JsonLinks (before ++ after) |} ∧
    (@getSubjectLinks file_platform "toc"
       (@addLink file_platform (at_time 1700000000000 "") "toc"
          (link_body "T" "https://example.com") blank).2).1 =
      {| status := 200; body := JsonLinks (before ++ new :: after) |} ∧
    (@USE_DB file_platform = false → after = []) ∧
    (@addLink file_platform (at_time 1700000000000 "") "toc"
       (link_body "T" "https://example.com") blank).1 =
      {| status := 201; body := JsonLink new |} ∧
    subjectKey new = "toc" ∧
    title new = JStr "T" ∧ url new = JStr "https://example.com" ∧
    addedBy new = JStr "admin" ∧
    _id new = Some "loyw3v28".
Proof.
  apply (@add_then_list file_platform (at_time 1700000000000 "") "toc"
           (link_body "T" "https://example.com") blank).
  - apply (bool_decide_unpack _). by vm_compute.
  - reflexivity.
  - reflexivity.
  - reflexivity.
  - by vm_compute.
Defined.

(** Two adds in the same millisecond mint the same id under two subjects. *)
Lemma same_tick_same_id :
  @USE_DB file_platform = false ∧
  ¬ ids_unique (data_of (file_run same_tick_trace)).
Proof.
  split; [reflexivity|]. intros [_ Hacross].
  assert (∃ l1 l2,
            links_or_empty (data_of (file_run same_tick_trace)) "toc" = [l1] ∧
            links_or_empty (data_of (file_run same_tick_trace)) "ai" = [l2] ∧
            _id l1 = _id l2) as (l1 & l2 & Htoc & Hai & Hid).
  { do 2 eexists. split; [by vm_compute|]. split; [by vm_compute|]. done. }
  apply (Hacross "toc" "ai" l1 l2); [done| | |done].
  - rewrite Htoc. by apply list_elem_of_singleton.
  - rewrite Hai. by apply list_elem_of_singleton.
Qed.

Lemma ids_unique_distinct_ticks_witness :
  ids_unique (data_of (file_run steady_trace)).
Proof.
  apply (@ids_unique_distinct_ticks file_platform steady_trace).
  - reflexivity.
  - apply (bool_decide_unpack _). by vm_compute.
Defined.

(** When the clock is set back between two adds, the file variant lists the
    later instant first. *)
Lemma clock_set_back_listing :
  ∃ ls,
    (@getSubjectLinks file_platform "toc" (file_run clock_back_trace)).1 =
      {| status := 200; body := JsonLinks ls |} ∧
    addedAt <$> ls = [1700000000500; 1700000000000] ∧
    ¬ ascending ls.
Proof.
  eexists. split; [by vm_compute|]. split; [reflexivity|].
  unfold ascending. simpl. intros Hsorted.
  apply Sorted_inv in Hsorted as [_ Hhead]. apply HdRel_inv in Hhead. lia.
Qed.

Lemma listing_ascending_witness :
  (∃ ls,
     (@getSubjectLinks file_platform "toc" (file_run growing_trace)).1 =
       {| status := 200; body := JsonLinks ls |} ∧
     ascending ls) ∧
  (∃ ls,
     (@getSubjectLinks file_platform "toc" (file_run growing_trace)).1 =
       {| status := 200; body := JsonLinks ls |} ∧
     title <$> ls = [JStr "Sipser"; JStr "Hopcroft"; JStr "Kozen"] ∧
     addedAt <$> ls = [1700000000000; 1700000001000; 1700000001000]).
Proof.
  split.
  - apply (@listing_ascending file_platform growing_trace "toc").
    + intros _. unfold steady_clock. simpl. repeat (constructor; try lia).
    + apply (bool_decide_unpack _). by vm_compute.
  - eexists. split; [by vm_compute|]. split; reflexivity.
Defined.

Lemma invalid_url_rejected_witness :
  status (@addLink file_platform (at_time 1700000000000 "") "toc"
            (link_body "T" "not-a-url") blank).1 = 400 ∧
  (@addLink file_platform (at_time 1700000000000 "") "toc"
     (link_body "T" "not-a-url") blank).2 = blank ∧
  @getSubjectLinks file_platform "toc"
    (@addLink file_platform (at_time 1700000000000 "") "toc"
       (link_body "T" "not-a-url") blank).2
  = @getSubjectLinks file_platform "toc" blank.
Proof.
  apply (@invalid_url_rejected file_platform (at_time 1700000000000 "") "toc"
           (link_body "T" "not-a-url") "not-a-url" blank).
  - apply (bool_decide_unpack _). by vm_compute.
  - reflexivity.
  - reflexivity.
  - reflexivity.
Defined.

Lemma deleteLink_malformed_id_witness :
  @deleteLink db_platform "toc" "loyw3v28" (db_run steady_trace)
  = (json_error 500 "Failed to delete link", db_run steady_trace).
Proof.
  apply (@deleteLink_malformed_id db_platform "toc" "loyw3v28").
  - reflexivity.
  - apply (bool_decide_unpack _). by vm_compute.
  - reflexivity.
Defined.

Lemma add_isolated_witness :
  (@getSubjectLinks file_platform "toc"
     (@addLink file_platform (at_time 1700000002000 "") "ai"
        (link_body "PRML" "https://example.com/prml") (file_run steady_trace)).2).1
  = (@getSubjectLinks file_platform "toc" (file_run steady_trace)).1.
Proof.
  apply (@add_isolated file_platform (at_time 1700000002000 "") "ai" "toc").
  - apply (bool_decide_unpack _). by vm_compute.
  - apply (bool_decide_unpack _). by vm_compute.
  - done.
  - by vm_compute.
Defined.

Lemma falsy_addedBy_is_admin_witness :
  ∃ new,
    (@addLink db_platform (at_time 1700000000000 "65527f3a0000000000000001") "cn"
       (Some (JObj [("title", JStr "Notes"); ("url", JStr "https://x.test/cn1");
                    ("addedBy", JStr "")])) blank).1
      = {| status := 201; body := JsonLink new |} ∧
    addedBy new = JStr "admin" ∧
    @stored_under db_platform "cn"
      (@addLink db_platform (at_time 1700000000000 "65527f3a0000000000000001") "cn"
         (Some (JObj [("title", JStr "Notes"); ("url", JStr "https://x.test/cn1");
                      ("addedBy", JStr "")])) blank).2
      = @stored_under db_platform "cn" blank ++ [new].
Proof.
  apply (@falsy_addedBy_is_admin db_platform
           (at_time 1700000000000 "65527f3a0000000000000001") "cn").
  - reflexivity.
  - by vm_compute.
Defined.

Lemma missing_entry_read_not_written_witness :
  let st := {| file := Some (delete "rm" defaultJsonData); collection := [] |} in
  @getSubjectLinks file_platform "rm" st
    = ({| status := 200; body := JsonLinks [] |}, st) ∧
  (∃ result,
     @getAllSubjects file_platform st
       = ({| status := 200; body := JsonSubjects result |}, st) ∧
     subject_links <$> result !! "rm" = Some []) ∧
  @addLink file_platform (at_time 1700000000000 "") "rm"
    (link_body "Methods" "https://example.com/rm") st
    = (json_error 500 "Failed to add link", st).
Proof.
  apply (@missing_entry_read_not_written file_platform (at_time 1700000000000 "")
           "rm" (link_body "Methods" "https://example.com/rm")
           (JStr "Methods") (JStr "https://example.com/rm")
           (delete "rm" defaultJsonData)).
  - reflexivity.
  - reflexivity.
  - apply (bool_decide_unpack _). by vm_compute.
  - by vm_compute.
  - repeat split; by vm_compute.
Defined.

(** * Further properties of the handlers *)

(** ** Each backend, step by step *)

Section Steps.
Context `{Platform}.

Lemma Link_create_validated (e : env) (key : string) (t u a : json)
    (st st' : store) (created : Link) :
  Link_create e key t u a st = (Returned created, st') →
  db_step e (collection st) (POST_link key None) (collection st') ∧
  file st' = file st.
Proof.
  unfold Link_create. intros Hcreate.
  destruct (String_cast t) as [ts|]; [|done].
  destruct (String_cast u) as [us|]; [|done].
  destruct (String_cast a) as [as'|]; [|done].
  case_bool_decide as Hvalid; [|done]. case_bool_decide as Hdup; [done|].
  injection Hcreate as <- <-. destruct Hvalid as (Hkey & Hts & Hus).
  split; [|done]. by apply db_insert.
Qed.

Lemma db_step_body (e : env) (coll coll' : list Link) (key : string)
    (body body' : option json) :
  db_step e coll (POST_link key body) coll' →
  db_step e coll (POST_link key body') coll'.
Proof.
  intros Hstep. inversion Hstep; subst; [constructor|by apply db_insert].
Qed.

Lemma serve_db_step (e : env) (req : request) (st : store) :
  USE_DB = true →
  db_step e (collection st) req (collection (serve e req st).2) ∧
  file (serve e req st).2 = file st.
Proof.
  intros Hdb. destruct req as [|key|key body|key id]; simpl.
  - rewrite getAllSubjects_db by done. split; [constructor|done].
  - destruct (get SUBJECTS key) as [subject| |] eqn:Hkey.
    + rewrite getSubjectLinks_db by (done || by rewrite Hkey).
      split; [constructor|done].
    + rewrite getSubjectLinks_db by (done || by rewrite Hkey).
      split; [constructor|done].
    + rewrite getSubjectLinks_unknown by done. split; [constructor|done].
  - destruct (accepted_or_refused key body) as [(t & u & Hacc)|Hrefused].
    + rewrite (addLink_db e key body t u st Hdb Hacc).
      destruct (Link_create _ _ _ _ _ st) as [[created|error] st'] eqn:Hcreate.
      * apply Link_create_validated in Hcreate as [Hstep Hfile].
        split; [|done]. by apply (db_step_body _ _ _ _ None).
      * apply Link_create_Thrown in Hcreate as ->. split; [constructor|done].
    + destruct (addLink_refused e key body st Hrefused) as [_ ->].
      split; [constructor|done].
  - destruct (get SUBJECTS key) as [subject| |] eqn:Hkey;
      [| |rewrite deleteLink_unknown by done; split; [constructor|done]].
    all: rewrite deleteLink_db by (done || by rewrite Hkey).
    all: destruct (castObjectId id) as [oid|] eqn:Hcast;
      [|split; [constructor|done]].
    all: destruct (list_find _ _) as [[idx deleted]|] eqn:Hfind;
      [|split; [constructor|done]].
    all: split; [|done]; by apply (db_remove e _ key id oid idx deleted).
Qed.

Lemma serve_file_collection (e : env) (req : request) (st : store) :
  USE_DB = false → collection (serve e req st).2 = collection st.
Proof.
  intros Hfile. destruct req as [|key|key body|key id]; simpl.
  - by rewrite getAllSubjects_file.
  - destruct (get SUBJECTS key) as [subject| |] eqn:Hkey.
    + by rewrite getSubjectLinks_file by (done || by rewrite Hkey).
    + by rewrite getSubjectLinks_file by (done || by rewrite Hkey).
    + by rewrite getSubjectLinks_unknown.
  - destruct (accepted_or_refused key body) as [(t & u & Hacc)|Hrefused].
    + rewrite (addLink_file e key body t u st Hfile Hacc).
      by destruct (data_of st !! key ≫= links).
    + by destruct (addLink_refused e key body st Hrefused) as [_ ->].
  - destruct (get SUBJECTS key) as [subject| |] eqn:Hkey;
      [| |by rewrite deleteLink_unknown].
    all: rewrite deleteLink_file by (done || by rewrite Hkey).
    all: by destruct (findIndex_id id _) as [[idx removed]|].
Qed.

End Steps.

Section Frames.
Context `{Platform}.

(** What [getSubjectLinks] answers is decided by the links stored under the
    key. *)
Lemma getSubjectLinks_stored (key : string) (st1 st2 : store) :
  stored_under key st1 = stored_under key st2 →
  (getSubjectLinks key st1).1 = (getSubjectLinks key st2).1.
Proof.
  intros Hstored. destruct (get SUBJECTS key) as [subject| |] eqn:Hkey;
    [| |by rewrite !getSubjectLinks_unknown].
  all: rewrite !getSubjectLinks_listing by (by rewrite Hkey).
  all: unfold listing, stored_under in *; destruct USE_DB; by rewrite Hstored.
Qed.

Lemma stored_under_ext (key : string) (st1 st2 : store) :
  data_of st1 = data_of st2 → collection st1 = collection st2 →
  stored_under key st1 = stored_under key st2.
Proof.
  intros Hdata Hcoll. unfold stored_under, documents_of.
  by rewrite Hdata, Hcoll.
Qed.

Lemma getAllSubjects_ext (st1 st2 : store) :
  data_of st1 = data_of st2 → collection st1 = collection st2 →
  (getAllSubjects st1).1 = (getAllSubjects st2).1.
Proof.
  intros Hdata Hcoll. destruct USE_DB eqn:Hdb.
  - rewrite !getAllSubjects_db by done. unfold documents_of. by rewrite Hcoll.
  - rewrite !getAllSubjects_file by done. by rewrite Hdata.
Qed.

Lemma getAllSubjects_frame (st : store) :
  data_of (getAllSubjects st).2 = data_of st ∧
  collection (getAllSubjects st).2 = collection st.
Proof.
  destruct USE_DB eqn:Hdb.
  - by rewrite getAllSubjects_db.
  - by rewrite getAllSubjects_file.
Qed.

Lemma getSubjectLinks_frame (key : string) (st : store) :
  data_of (getSubjectLinks key st).2 = data_of st ∧
  collection (getSubjectLinks key st).2 = collection st.
Proof.
  destruct (get SUBJECTS key) as [subject| |] eqn:Hkey;
    [| |by rewrite getSubjectLinks_unknown].
  all: destruct USE_DB eqn:Hdb.
  all: first [ by rewrite getSubjectLinks_db by (done || by rewrite Hkey)
             | by rewrite getSubjectLinks_file by (done || by rewrite Hkey) ].
Qed.

(** An accepted request is answered 201 or 500. *)
Lemma addLink_accepted_status (e : env) (key : string) (body : option json)
    (t u : json) (st : store) :
  accepted key body t u →
  status (addLink e key body st).1 = 201 ∨ status (addLink e key body st).1 = 500.
Proof.
  intros Hacc. destruct USE_DB eqn:Hdb.
  - rewrite (addLink_db e key body t u st Hdb Hacc).
    destruct (Link_create _ _ _ _ _ st) as [[created|error] st']; auto.
  - rewrite (addLink_file e key body t u st Hdb Hacc).
    destruct (data_of st !! key ≫= links); auto.
Qed.

Lemma addLink_not_201_frame (e : env) (key : string) (body : option json)
    (st : store) :
  status (addLink e key body st).1 ≠ 201 →
  data_of (addLink e key body st).2 = data_of st ∧
  collection (addLink e key body st).2 = collection st.
Proof.
  intros Hstatus.
  destruct (accepted_or_refused key body) as [(t & u & Hacc)|Hrefused];
    [|by destruct (addLink_refused e key body st Hrefused) as [_ ->]].
  destruct USE_DB eqn:Hdb.
  - rewrite (addLink_db e key body t u st Hdb Hacc) in *.
    destruct (Link_create _ _ _ _ _ st) as [[created|error] st'] eqn:Hcreate;
      [done|].
    by apply Link_create_Thrown in Hcreate as ->.
  - rewrite (addLink_file e key body t u st Hdb Hacc) in *.
    by destruct (data_of st !! key ≫= links).
Qed.

Lemma filter_delete_other {A : Type} (P : A → Prop) `{∀ x, Decision (P x)}
    (l : list A) (idx : nat) (x : A) :
  l !! idx = Some x → ¬ P x → filter P (delete idx l) = filter P l.
Proof.
  intros Hidx Hx. rewrite delete_take_drop.
  rewrite <- (take_drop_middle l idx x Hidx) at 3.
  rewrite !filter_app. f_equal. by rewrite filter_cons_False.
Qed.

Lemma deleteLink_stored_other (key key' id : string) (st : store) :
  key ≠ key' →
  stored_under key' (deleteLink key id st).2 = stored_under key' st.
Proof.
  intros Hne. destruct (get SUBJECTS key) as [subject| |] eqn:Hkey;
    [| |by rewrite deleteLink_unknown].
  all: unfold stored_under; destruct USE_DB eqn:Hdb.
  all: first
    [ rewrite deleteLink_db by (done || by rewrite Hkey);
      destruct (castObjectId id) as [oid|]; [|done];
      destruct (list_find _ _) as [[idx deleted]|] eqn:Hfind; [|done];
      apply list_find_Some in Hfind as (Hidx & [_ Hsub] & _);
      unfold documents_of; cbn [snd collection];
      apply (filter_delete_other _ _ idx deleted); [done|congruence]
    | rewrite deleteLink_file by (done || by rewrite Hkey);
      destruct (findIndex_id id _) as [[idx removed]|]; [|done];
      cbn [snd]; rewrite data_of_written;
      by apply links_or_empty_with_links_ne ].
Qed.

End Frames.

(** ** What the handlers leave alone *)

(** X6.  Each backend keeps to its own storage: over any run, the database
    variant never touches [data.json] and the file variant never touches the
    collection. *)
Theorem backends_kept_apart `{Platform} (trace : list (env * request))
    (st : store) :
  if USE_DB then file (run trace st) = file st
  else collection (run trace st) = collection st.
Proof.
  destruct USE_DB eqn:Hdb; revert st;
    induction trace as [|[e req] rest IH]; intros st; simpl; try done.
  - rewrite IH. by apply serve_db_step.
  - rewrite IH. by apply serve_file_collection.
Qed.

(** X5.  The two GET handlers are read-only: they change neither the document
    of the file variant nor the collection (at most they create a missing
    [data.json] with its default content), so a read repeated, or made after
    the other read, is answered the same. *)
Theorem reads_change_nothing `{Platform} (key : string) (st : store) :
  data_of (getAllSubjects st).2 = data_of st ∧
  collection (getAllSubjects st).2 = collection st ∧
  data_of (getSubjectLinks key st).2 = data_of st ∧
  collection (getSubjectLinks key st).2 = collection st ∧
  (getSubjectLinks key (getSubjectLinks key st).2).1 = (getSubjectLinks key st).1 ∧
  (getSubjectLinks key (getAllSubjects st).2).1 = (getSubjectLinks key st).1 ∧
  (getAllSubjects (getAllSubjects st).2).1 = (getAllSubjects st).1 ∧
  (getAllSubjects (getSubjectLinks key st).2).1 = (getAllSubjects st).1.
Proof.
  destruct (getAllSubjects_frame st) as [Hall_data Hall_coll].
  destruct (getSubjectLinks_frame key st) as [Hone_data Hone_coll].
  repeat split; try done.
  - by apply getSubjectLinks_stored, stored_under_ext.
  - by apply getSubjectLinks_stored, stored_under_ext.
  - by apply getAllSubjects_ext.
  - by apply getAllSubjects_ext.
Qed.

(** X4.  An add request that is not answered 201 is answered 400, 404 or 500
    and persists nothing: the document and the collection are as before. *)
Theorem failed_add_changes_nothing `{Platform} (e : env) (key : string)
    (body : option json) (st : store) :
  status (addLink e key body st).1 ≠ 201 →
  (status (addLink e key body st).1 = 400 ∨
   status (addLink e key body st).1 = 404 ∨
   status (addLink e key body st).1 = 500) ∧
  data_of (addLink e key body st).2 = data_of st ∧
  collection (addLink e key body st).2 = collection st.
Proof.
  intros Hstatus. split; [|by apply addLink_not_201_frame].
  destruct (accepted_or_refused key body) as [(t & u & Hacc)|Hrefused].
  - destruct (addLink_accepted_status e key body t u st Hacc); [done|auto].
  - destruct (addLink_refused e key body st Hrefused) as [[?|?] _]; auto.
Qed.

(** X3.  Deleting under one subject never changes what is stored or listed
    under another, whatever the id and the outcome: an id is only ever
    matched within the subject of the request. *)
Theorem delete_isolated `{Platform} (key key' id : string) (st : store) :
  key ≠ key' →
  stored_under key' (deleteLink key id st).2 = stored_under key' st ∧
  (getSubjectLinks key' (deleteLink key id st).2).1 = (getSubjectLinks key' st).1.
Proof.
  intros Hne. pose proof (deleteLink_stored_other key key' id st Hne) as Hstored.
  split; [done|]. by apply getSubjectLinks_stored.
Qed.

(** ** The answers of the POST handler *)

(** X7.  The guards of the POST handler in the order they are taken: 404
    exactly when title and url are both truthy and the key fails the registry
    check; 400 exactly when the title or the url is falsy, or the key passes
    the check and [new URL(url)] throws. *)
Theorem addLink_status `{Platform} (e : env) (key : string)
    (body : option json) (st : store) :
  (status (addLink e key body st).1 = 404 ↔
     truthy (field body "title") = true ∧ truthy (field body "url") = true ∧
     get SUBJECTS key = Absent) ∧
  (status (addLink e key body st).1 = 400 ↔
     truthy (field body "title") = false ∨ truthy (field body "url") = false ∨
     (get SUBJECTS key ≠ Absent ∧
      ∃ u, field body "url" = Some u ∧ URL_parses u = false)).
Proof.
  destruct (present (field body "title")) as [t|] eqn:Ht.
  2: { rewrite addLink_missing by auto. apply present_None in Ht.
       rewrite Ht. split; split; (done || auto || by intros (? & _)). }
  destruct (present (field body "url")) as [u|] eqn:Hu.
  2: { rewrite addLink_missing by auto. apply present_None in Hu.
       rewrite Hu. split; split; (done || auto || by intros (_ & ? & _)). }
  pose proof Ht as [Hft Htt]%present_Some. pose proof Hu as [Hfu Htu]%present_Some.
  rewrite Htt, Htu.
  destruct (get SUBJECTS key) as [subject| |] eqn:Hkey.
  3: { rewrite (addLink_unknown e key body t u) by done. split; split; try done.
       intros [?|[?|[? _]]]; done. }
  all: destruct (URL_parses u) eqn:Hurl.
  all: first
    [ rewrite (addLink_invalid_url e key body t u) by (done || by rewrite Hkey);
      split; split; try done; [by intros (_ & _ & ?)|];
      intros _; right; right; split; [done|]; by exists u
    | assert (accepted key body t u) as Hacc
        by (unfold accepted; by rewrite Hkey);
      destruct (addLink_accepted_status e key body t u st Hacc) as [-> | ->];
      split; split; try done; try (by intros (_ & _ & ?));
      intros [?|[?|[_ (u' & Hu' & Hparse)]]]; try done; congruence ].
Qed.

(** ** Adding, then deleting *)

Lemma with_links_twice (data : gmap string SubjectEntry) (key : string)
    (ls1 ls2 : list Link) :
  with_links (with_links data key ls1) key ls2 = with_links data key ls2.
Proof.
  apply map_eq. intros k. unfold with_links.
  destruct (decide (k = key)) as [->|Hne].
  - rewrite !lookup_alter_eq. by destruct (data !! key).
  - by rewrite !lookup_alter_ne.
Qed.

Lemma with_links_same (data : gmap string SubjectEntry) (key : string)
    (ls : list Link) :
  data !! key ≫= links = Some ls → with_links data key ls = data.
Proof.
  intros Hls. apply alter_id. intros [entry_name' links'] Hentry.
  rewrite Hentry in Hls. simpl in Hls. by rewrite Hls.
Qed.

Lemma filter_all {A : Type} (l : list A) : filter (λ _, True) l = l.
Proof.
  induction l as [|x l IH]; [done|]. rewrite filter_cons_True by done.
  by rewrite IH.
Qed.

(** Once the first match is removed from a list whose matching keys are
    pairwise distinct, nothing matches any more. *)
Lemma list_find_after_delete {A : Type} (P Q : A → Prop)
    `{∀ x, Decision (P x)} `{∀ x, Decision (Q x)} (g : A → string)
    (l : list A) (idx : nat) (x : A) :
  (∀ y, P y → Q y) → (∀ y z, P y → P z → g y = g z) →
  NoDup (g <$> filter Q l) →
  list_find P l = Some (idx, x) → list_find P (delete idx l) = None.
Proof.
  intros HPQ Hsame. revert idx.
  induction l as [|a rest IH]; intros idx Hnodup Hfind; [done|].
  assert (NoDup (g <$> filter Q rest)) as Hrest.
  { rewrite filter_cons in Hnodup. destruct (decide (Q a)); [|done].
    rewrite fmap_cons in Hnodup. by apply NoDup_cons in Hnodup as [_ ?]. }
  destruct (decide (P a)) as [Ha|Ha].
  - assert (idx = 0%nat ∧ x = a) as [-> ->].
    { apply list_find_Some in Hfind as (Hidx & Hx & Hfirst).
      destruct idx as [|idx]; [by injection Hidx as ->|].
      destruct (Hfirst 0%nat a); [done|lia|done]. }
    simpl. apply list_find_None, Forall_forall. intros y Hy HPy.
    rewrite filter_cons_True, fmap_cons in Hnodup by auto.
    apply NoDup_cons in Hnodup as [Hfresh _]. apply Hfresh.
    apply list_elem_of_fmap. exists y. split; [by apply Hsame|].
    apply list_elem_of_filter. auto.
  - destruct idx as [|idx].
    { apply list_find_Some in Hfind as (Hidx & Hx & _).
      injection Hidx as ->. done. }
    assert (list_find P rest = Some (idx, x)) as Hfind'.
    { apply list_find_Some in Hfind as (Hidx & Hx & Hfirst).
      apply list_find_Some. split; [done|]. split; [done|].
      intros j y Hj Hlt. apply (Hfirst (S j) y); [done|lia]. }
    change (delete (S idx) (a :: rest)) with (a :: delete idx rest).
    apply list_find_None. constructor; [done|].
    apply (proj1 (list_find_None P (delete idx rest))). by apply (IH idx).
Qed.

(** X8.  In the file variant, deleting by the id echoed in a 201 undoes the
    add, provided no link stored under the subject already had that id: the
    record echoed is the one removed, and the document is as it was before
    the add. *)
Theorem add_then_delete_file `{Platform} (e : env) (key : string)
    (body : option json) (st : store) :
  USE_DB = false →
  status (addLink e key body st).1 = 201 →
  Forall (λ l, id_or_empty l ≠ Number_toString 36 (Date_now e))
    (links_or_empty (data_of st) key) →
  ∃ new,
    (addLink e key body st).1 = {| status := 201; body := JsonLink new |} ∧
    _id new = Some (Number_toString 36 (Date_now e)) ∧
    (deleteLink key (Number_toString 36 (Date_now e)) (addLink e key body st).2).1
      = {| status := 200; body := JsonLink new |} ∧
    data_of (deleteLink key (Number_toString 36 (Date_now e))
               (addLink e key body st).2).2 = data_of st ∧
    collection (deleteLink key (Number_toString 36 (Date_now e))
                  (addLink e key body st).2).2 = collection st.
Proof.
  intros Hfile Hstatus Hfresh.
  destruct (addLink_201_file e key body st Hfile Hstatus)
    as (t & u & ls & Hacc & Hls & ->).
  set (new := newLink e key t u (field body "addedBy")).
  exists new. split; [done|]. split; [done|]. cbn [fst snd].
  rewrite deleteLink_file by (done || apply Hacc). rewrite data_of_written.
  rewrite (links_or_empty_updated _ _ _ ls) by done. rewrite decide_True by done.
  rewrite (links_or_empty_links _ _ ls Hls) in Hfresh.
  assert (findIndex_id (Number_toString 36 (Date_now e)) (ls ++ [new])
          = Some (length ls, new)) as ->.
  { unfold findIndex_id. rewrite list_find_app_r by (by apply list_find_None).
    simpl. by rewrite decide_True. }
  cbn [fst snd]. rewrite data_of_written. split; [done|]. split; [|done].
  rewrite with_links_twice.
  replace (delete (length ls) (ls ++ [new])) with ls
    by (by rewrite delete_middle, app_nil_r).
  by apply with_links_same.
Qed.

(** X9.  In the database variant, deleting by the id echoed in a 201 undoes
    the add, provided the generated identifier casts to itself: the document
    echoed is the one removed, and the store is as it was before the add. *)
Theorem add_then_delete_db `{Platform} (e : env) (key : string)
    (body : option json) (st : store) :
  USE_DB = true →
  status (addLink e key body st).1 = 201 →
  castObjectId (new_ObjectId e) = Some (new_ObjectId e) →
  ∃ created,
    (addLink e key body st).1 = {| status := 201; body := JsonLink created |} ∧
    _id created = Some (new_ObjectId e) ∧
    deleteLink key (new_ObjectId e) (addLink e key body st).2
      = ({| status := 200; body := JsonLink created |}, st).
Proof.
  intros Hdb Hstatus Hcast.
  destruct (addLink_201_db e key body st Hdb Hstatus)
    as (t & u & ts & us & as' & Hacc & _ & _ & _ & _ & Hfresh & ->).
  eexists. split; [done|]. split; [done|]. cbn [fst snd].
  rewrite deleteLink_db by (done || apply Hacc). rewrite Hcast. cbn [collection].
  rewrite list_find_app_r.
  2: { apply list_find_None, Forall_forall. intros l Hl [Hid _].
       apply Hfresh. apply list_elem_of_fmap. by exists l. }
  simpl. rewrite decide_True by done. simpl.
  rewrite delete_middle, app_nil_r. by destruct st.
Qed.

(** X10.  When the links stored under a subject have pairwise distinct ids,
    a delete answered 200 cannot be repeated: the same request is then
    answered 404 "Link not found" and changes nothing. *)
Theorem delete_twice `{Platform} (key id : string) (st : store) :
  NoDup (id_or_empty <$> stored_under key st) →
  status (deleteLink key id st).1 = 200 →
  (deleteLink key id (deleteLink key id st).2).1
    = json_error 404 "Link not found" ∧
  data_of (deleteLink key id (deleteLink key id st).2).2
    = data_of (deleteLink key id st).2 ∧
  collection (deleteLink key id (deleteLink key id st).2).2
    = collection (deleteLink key id st).2.
Proof.
  intros Hnodup Hstatus.
  assert (get SUBJECTS key ≠ Absent) as Hkey.
  { intros Hkey. by rewrite deleteLink_unknown in Hstatus. }
  unfold stored_under in Hnodup. destruct USE_DB eqn:Hdb.
  - rewrite (deleteLink_db key id st) in * by done.
    destruct (castObjectId id) as [oid|] eqn:Hcast; [|done].
    destruct (list_find _ (collection st)) as [[idx deleted]|] eqn:Hfind; [|done].
    cbn [fst snd]. rewrite deleteLink_db by done. rewrite Hcast. cbn [collection].
    rewrite (list_find_after_delete _ (λ l, subjectKey l = key) id_or_empty
               (collection st) idx deleted); [done| | |done..].
    + by intros l [_ ?].
    + intros l1 l2 [Hid1 _] [Hid2 _]. unfold id_or_empty. by rewrite Hid1, Hid2.
  - rewrite (deleteLink_file key id st) in * by done.
    destruct (findIndex_id id _) as [[idx removed]|] eqn:Hfind; [|done].
    cbn [fst snd]. rewrite deleteLink_file by done. rewrite data_of_written.
    assert (data_of st !! key ≫= links = Some (links_or_empty (data_of st) key))
      as Hls.
    { apply list_find_Some in Hfind as (Hidx & _ & _).
      unfold links_or_empty in Hidx |- *.
      destruct (data_of st !! key) as [entry|]; [|done].
      simpl in *. destruct (links entry) as [ls|]; [done|]. by destruct idx. }
    rewrite (links_or_empty_updated _ _ _ _ _ Hls). rewrite decide_True by done.
    unfold findIndex_id in *.
    rewrite (list_find_after_delete _ (λ _, True) id_or_empty _ idx removed);
      [done|done| |by rewrite filter_all|done].
    intros l1 l2 Hid1 Hid2. unfold id_or_empty. by rewrite Hid1, Hid2.
Qed.

(** ** What a run from a first deployment keeps *)

Lemma assoc_in_keys {A : Type} (key : string) (o : list (string * A)) (a : A) :
  assoc key o = Some a → key ∈ Object_keys o ∧ (key, a) ∈ o.
Proof.
  intros Hassoc. destruct (decide (key ∈ Object_keys o)) as [Hin|Hnotin].
  - split; [done|]. destruct (assoc_Some key o Hin) as (a' & Ha' & Hmem).
    congruence.
  - by rewrite assoc_None in Hassoc.
Qed.

Lemma defaultJsonData_lookup (key : string) :
  defaultJsonData !! key
  = (λ subject, {| entry_name := name subject; links := Some [] |})
      <$> assoc key SUBJECTS.
Proof.
  unfold defaultJsonData. destruct (assoc key SUBJECTS) as [subject|] eqn:Hassoc.
  - apply assoc_in_keys in Hassoc as [_ Hin].
    by rewrite (lookup_foldl_insert
      (λ _ s, {| entry_name := name s; links := Some [] |})
      SUBJECTS ∅ key subject SUBJECTS_NoDup Hin).
  - rewrite (lookup_foldl_insert_notin
      (λ _ s, {| entry_name := name s; links := Some [] |})); [done|].
    intros Hin. destruct (assoc_Some key SUBJECTS Hin) as (a & Ha & _).
    congruence.
Qed.

Lemma defaultJsonData_shaped : registry_shaped defaultJsonData.
Proof.
  intros key. rewrite defaultJsonData_lookup.
  destruct (assoc key SUBJECTS); [by eexists|done].
Qed.

Lemma registry_shaped_with_links (data : gmap string SubjectEntry)
    (key : string) (ls : list Link) :
  registry_shaped data → registry_shaped (with_links data key ls).
Proof.
  intros Hshape k. specialize (Hshape k). unfold with_links.
  destruct (decide (k = key)) as [->|Hne].
  - rewrite lookup_alter_eq. destruct (assoc key SUBJECTS).
    + destruct Hshape as [ls0 ->]. by eexists.
    + by rewrite Hshape.
  - by rewrite lookup_alter_ne.
Qed.

Lemma registry_shaped_known (data : gmap string SubjectEntry) (key : string) :
  registry_shaped data → is_Some (data !! key) → key ∈ Object_keys SUBJECTS.
Proof.
  intros Hshape Hsome. specialize (Hshape key).
  destruct (assoc key SUBJECTS) as [subject|] eqn:Hassoc.
  - by apply assoc_in_keys in Hassoc as [? _].
  - rewrite Hshape in Hsome. by destruct Hsome.
Qed.

Lemma prototype_not_registry (key : string) :
  key ∈ Object_prototype → key ∉ Object_keys SUBJECTS.
Proof.
  unfold Object_prototype. intros Hproto.
  repeat (apply elem_of_cons in Hproto as [->|Hproto];
            [apply (bool_decide_unpack _); by vm_compute|]).
  by apply elem_of_nil in Hproto.
Qed.

Lemma JSON_stringify_truthy (v : json) :
  truthy (Some v) = true →
  JSON_stringify v ∉ [JStr ""; JBool false; JNum Zero].
Proof.
  intros Htruthy. rewrite !elem_of_cons, elem_of_nil.
  destruct v as [|b|[[|negative mantissa exponent]| |negative]|s|items|props];
    simpl in *; try (intros [?|[?|[?|[]]]]; congruence).
  destruct (String.eqb_spec s ""); [done|]. intros [?|[?|[?|[]]]]; congruence.
Qed.

Section Runs.
Context `{Platform}.

Lemma file_step_well_filed (e : env) (req : request)
    (data data' : gmap string SubjectEntry) :
  file_step e data req data' →
  registry_shaped data →
  (∀ key l, l ∈ links_or_empty data key → well_filed key l) →
  registry_shaped data' ∧
  (∀ key l, l ∈ links_or_empty data' key → well_filed key l).
Proof.
  intros Hstep Hshape Hfiled.
  destruct Hstep as [req|key body t u ls Hacc Hls|key id idx removed ls Hls Hfind].
  - done.
  - split; [by apply registry_shaped_with_links|].
    pose proof (links_or_empty_links _ _ _ Hls) as Hold.
    intros k l. rewrite (links_or_empty_updated _ _ _ ls) by done.
    destruct (decide (k = key)) as [->|Hk]; [|apply Hfiled].
    intros [Hl| ->%list_elem_of_singleton]%elem_of_app.
    + apply Hfiled. by rewrite Hold.
    + destruct Hacc as (Ht & Hu & _ & _).
      apply present_Some in Ht as [Hft Ht]. apply present_Some in Hu as [Hfu Hu].
      rewrite Hft in Ht. rewrite Hfu in Hu.
      split; [|split; [done|split; [done|split; [by exists t|by exists u]]]].
      apply (registry_shaped_known data); [done|].
      destruct (data !! key); [by eexists|done].
  - split; [by apply registry_shaped_with_links|].
    pose proof (links_or_empty_links _ _ _ Hls) as Hold.
    intros k l. rewrite (links_or_empty_updated _ _ _ ls) by done.
    destruct (decide (k = key)) as [->|Hk]; [|apply Hfiled].
    intros Hl%list_elem_of_delete_inv. apply Hfiled. by rewrite Hold.
Qed.

Lemma run_file_well_filed (trace : list (env * request)) (st : store) :
  USE_DB = false →
  registry_shaped (data_of st) →
  (∀ key l, l ∈ links_or_empty (data_of st) key → well_filed key l) →
  registry_shaped (data_of (run trace st)) ∧
  (∀ key l, l ∈ links_or_empty (data_of (run trace st)) key → well_filed key l).
Proof.
  intros Hfile. revert st.
  induction trace as [|[e req] rest IH]; intros st Hshape Hfiled; [done|].
  simpl. apply IH;
    by apply (file_step_well_filed e req (data_of st));
      [apply serve_file_step|..].
Qed.

Lemma db_step_well_filed (e : env) (req : request) (coll coll' : list Link) :
  db_step e coll req coll' →
  Forall (λ l, well_filed (subjectKey l) l) coll →
  Forall (λ l, well_filed (subjectKey l) l) coll'.
Proof.
  intros Hstep Hfiled.
  destruct Hstep as [req|key body ts us as' Hkey Hts Hus Hfresh
                    |key id oid idx deleted Hcast Hfind].
  - done.
  - apply Forall_app. split; [done|]. constructor; [|constructor].
    split; [done|]. split; [done|]. split; [done|]. split.
    + exists (JStr ts). split; [|done]. simpl. by destruct (String.eqb_spec ts "").
    + exists (JStr us). split; [|done]. simpl. by destruct (String.eqb_spec us "").
  - rewrite Forall_forall in Hfiled |- *.
    intros l Hl%list_elem_of_delete_inv. by apply Hfiled.
Qed.

Lemma run_db_well_filed (trace : list (env * request)) (st : store) :
  USE_DB = true →
  Forall (λ l, well_filed (subjectKey l) l) (collection st) →
  Forall (λ l, well_filed (subjectKey l) l) (collection (run trace st)).
Proof.
  intros Hdb. revert st.
  induction trace as [|[e req] rest IH]; intros st Hfiled; [done|].
  simpl. apply IH. apply (db_step_well_filed e req (collection st)); [|done].
  by apply serve_db_step.
Qed.

Lemma run_stored_well_filed (trace : list (env * request)) (key : string) :
  Forall (well_filed key) (stored_under key (run trace (start blank))).
Proof.
  unfold stored_under. destruct USE_DB eqn:Hdb.
  - pose proof (run_db_well_filed trace (start blank) Hdb) as Hfiled.
    unfold start in Hfiled |- *. rewrite Hdb in Hfiled |- *.
    specialize (Hfiled (Forall_nil_2 _)).
    rewrite Forall_forall in Hfiled |- *. unfold documents_of.
    intros l [Hsub Hl]%list_elem_of_filter. rewrite <- Hsub. by apply Hfiled.
  - apply Forall_forall. intros l Hl.
    apply (run_file_well_filed trace (start blank) Hdb); [| |done].
    + rewrite data_of_start. apply defaultJsonData_shaped.
    + intros k l'. rewrite data_of_start, defaultJsonData_empty.
      by intros ?%elem_of_nil.
Qed.

Lemma run_file_shaped (trace : list (env * request)) :
  USE_DB = false → registry_shaped (data_of (run trace (start blank))).
Proof.
  intros Hfile. apply (run_file_well_filed trace (start blank) Hfile).
  - rewrite data_of_start. apply defaultJsonData_shaped.
  - intros k l'. rewrite data_of_start, defaultJsonData_empty.
    by intros ?%elem_of_nil.
Qed.

End Runs.

(** X11.  After any run from a first deployment, in both backends, every
    stored link is filed under a key of the registry, carries that key as its
    [subjectKey] and has an id; its title and its url are each what
    [JSON.stringify] writes for some truthy value, so neither is the empty
    string, [false] or [0] (either may be [null], which is what an infinity
    is written as). *)
Theorem stored_links_well_filed `{Platform} (trace : list (env * request))
    (key : string) :
  Forall (λ l, well_filed key l ∧
               (title l ∉ [JStr ""; JBool false; JNum Zero]) ∧
               (url l ∉ [JStr ""; JBool false; JNum Zero]))
         (stored_under key (run trace (start blank))).
Proof.
  eapply Forall_impl; [apply run_stored_well_filed|].
  intros l Hfiled. split; [done|].
  destruct Hfiled as (_ & _ & _ & (t & Ht & ->) & (u & Hu & ->)).
  split; by apply JSON_stringify_truthy.
Qed.

(** X12.  In the file variant, after any run from a first deployment, the
    document still has exactly the entries of the registry, each with its
    display name and an array of links; so a request for a registered
    subject that passes the guards is always answered 201. *)
Theorem file_add_succeeds `{Platform} (trace : list (env * request)) (e : env)
    (key : string) (body : option json) (t u : json) :
  USE_DB = false → key ∈ Object_keys SUBJECTS → accepted key body t u →
  registry_shaped (data_of (run trace (start blank))) ∧
  status (addLink e key body (run trace (start blank))).1 = 201.
Proof.
  intros Hfile Hkey Hacc. pose proof (run_file_shaped trace Hfile) as Hshape.
  split; [done|]. rewrite (addLink_file e key body t u _ Hfile Hacc).
  specialize (Hshape key).
  destruct (assoc_Some key SUBJECTS Hkey) as (subject & Hassoc & _).
  rewrite Hassoc in Hshape. destruct Hshape as [ls ->]. done.
Qed.

(** X13.  [ensureDataFile] leaves an existing data file alone and creates a
    missing one with the default document, which has, for every key of the
    registry, the subject's display name with an empty array of links, and
    no other entry. *)
Theorem default_document (st : store) (key : string) :
  (is_Some (file st) → (ensureDataFile st).2 = st) ∧
  (file st = None →
   (ensureDataFile st).2
   = {| file := Some defaultJsonData; collection := collection st |}) ∧
  defaultJsonData !! key
  = (λ subject, {| entry_name := name subject; links := Some [] |})
      <$> assoc key SUBJECTS.
Proof.
  split; [|split].
  - intros [data Hdata]. unfold ensureDataFile. by rewrite Hdata.
  - intros Hnone. unfold ensureDataFile. by rewrite Hnone.
  - apply defaultJsonData_lookup.
Qed.

(** X14.  Two links minted by the file variant have the same id exactly when
    they were minted at the same [Date.now()] reading. *)
Theorem newLink_ids (e1 e2 : env) (k1 k2 : string) (t1 t2 u1 u2 : json)
    (a1 a2 : option json) :
  _id (newLink e1 k1 t1 u1 a1) = _id (newLink e2 k2 t2 u2 a2) ↔
  Date_now e1 = Date_now e2.
Proof.
  simpl. split.
  - intros [= Heq]. by apply Number_toString_inj in Heq.
  - by intros ->.
Qed.

(** X15.  A key that names a property of [Object.prototype] passes the
    registry check, yet after any run from a first deployment nothing is
    ever stored under it: listing answers 200 with the empty list, an add
    that passes the guards is answered 500 and persists nothing, and a
    delete is answered 404 "Link not found", except in the database variant
    for an id that does not cast, where it is answered 500. *)
Theorem inherited_key_stores_nothing `{Platform} (trace : list (env * request))
    (e : env) (key id : string) (body : option json) (t u : json) :
  key ∈ Object_prototype → accepted key body t u →
  (getSubjectLinks key (run trace (start blank))).1
    = {| status := 200; body := JsonLinks [] |} ∧
  (addLink e key body (run trace (start blank))).1
    = json_error 500 "Failed to add link" ∧
  data_of (addLink e key body (run trace (start blank))).2
    = data_of (run trace (start blank)) ∧
  collection (addLink e key body (run trace (start blank))).2
    = collection (run trace (start blank)) ∧
  (deleteLink key id (run trace (start blank))).1
    = (if USE_DB && bool_decide (castObjectId id = None)
       then json_error 500 "Failed to delete link"
       else json_error 404 "Link not found").
Proof.
  intros Hproto Hacc. pose proof (prototype_not_registry key Hproto) as Hunknown.
  set (st := run trace (start blank)).
  assert (get SUBJECTS key ≠ Absent) as Hget by apply Hacc.
  assert (stored_under key st = []) as Hempty.
  { pose proof (run_stored_well_filed trace key) as Hfiled. fold st in Hfiled.
    destruct (stored_under key st) as [|l ls]; [done|].
    apply Forall_cons in Hfiled as [[Hkey _] _]. done. }
  assert ((addLink e key body st).1 = json_error 500 "Failed to add link")
    as Hadd.
  { destruct USE_DB eqn:Hdb.
    - rewrite (addLink_db e key body t u st Hdb Hacc).
      destruct (Link_create _ _ _ _ _ st) as [[created|error] st'] eqn:Hcreate;
        [|done].
      by apply Link_create_Returned in Hcreate
        as (ts & us & as' & _ & _ & _ & Hkey & _).
    - rewrite (addLink_file e key body t u st Hdb Hacc).
      pose proof (run_file_shaped trace Hdb key) as Hshape. fold st in Hshape.
      rewrite assoc_None in Hshape by done. by rewrite Hshape. }
  split; [|split; [done|]].
  - rewrite getSubjectLinks_listing by done. unfold listing, stored_under in *.
    destruct USE_DB; by rewrite Hempty.
  - destruct (addLink_not_201_frame e key body st) as [Hdata Hcoll];
      [by rewrite Hadd|].
    split; [done|]. split; [done|].
    unfold stored_under in Hempty. destruct USE_DB eqn:Hdb.
    + rewrite deleteLink_db by done. cbn [andb].
      destruct (castObjectId id) as [oid|]; [|done].
      rewrite bool_decide_eq_false_2 by done.
      destruct (list_find _ _) as [[idx deleted]|] eqn:Hfind; [|done].
      apply list_find_Some in Hfind as (Hidx & [_ Hsub] & _).
      assert (deleted ∈ documents_of key st) as Hin.
      { apply list_elem_of_filter. split; [done|].
        by apply list_elem_of_lookup_2 in Hidx. }
      rewrite Hempty in Hin. by apply elem_of_nil in Hin.
    + rewrite deleteLink_file by done. by rewrite Hempty.
Qed.

(** ** What an add stores, and what a listing of all subjects shows *)

Lemma addLink_stored_other `{Platform} (e : env) (key key' : string)
    (body : option json) (st : store) :
  key ≠ key' →
  stored_under key' (addLink e key body st).2 = stored_under key' st.
Proof.
  intros Hne. destruct (accepted_or_refused key body) as [(t & u & Hacc)|Hrefused];
    [|by destruct (addLink_refused e key body st Hrefused) as [_ ->]].
  unfold stored_under. destruct USE_DB eqn:Hdb.
  - rewrite (addLink_db e key body t u st Hdb Hacc).
    destruct (Link_create _ _ _ _ _ st) as [[created|error] st'] eqn:Hcreate.
    + apply Link_create_Returned in Hcreate
        as (ts & us & as' & _ & _ & _ & _ & _ & -> & ->).
      cbn [snd]. rewrite documents_of_created. cbn [subjectKey].
      rewrite decide_False by done. by rewrite app_nil_r.
    + by apply Link_create_Thrown in Hcreate as ->.
  - rewrite (addLink_file e key body t u st Hdb Hacc).
    destruct (data_of st !! key ≫= links) as [ls|]; [|done].
    cbn [snd]. rewrite data_of_written. by apply links_or_empty_with_links_ne.
Qed.

(** X16.  An add answered 201 stores exactly one record: the record echoed is
    appended to the links stored under the subject of the request, it carries
    that subject, and what is stored under every other subject is as before.
    The file variant stores title, url and a truthy addedBy as
    [JSON.stringify] writes them (as they were sent, except that an infinity
    becomes [null] and negative zero becomes [0]) and stamps the record with
    [new Date()]; the database variant stores their casts to [String] and
    stamps it with [Date.now()]. *)
Theorem add_stores_one `{Platform} (e : env) (key : string)
    (body : option json) (st : store) :
  status (addLink e key body st).1 = 201 →
  ∃ new,
    (addLink e key body st).1 = {| status := 201; body := JsonLink new |} ∧
    subjectKey new = key ∧
    stored_under key (addLink e key body st).2 = stored_under key st ++ [new] ∧
    (∀ key', key ≠ key' →
       stored_under key' (addLink e key body st).2 = stored_under key' st) ∧
    (if USE_DB
     then ∃ ts us as',
            field body "title" ≫= String_cast = Some ts ∧
            field body "url" ≫= String_cast = Some us ∧
            String_cast (or_else (field body "addedBy") (JStr "admin"))
              = Some as' ∧
            title new = JStr ts ∧ url new = JStr us ∧
            addedBy new = JStr as' ∧ addedAt new = Date_now e
     else ∃ t u,
            field body "title" = Some t ∧ field body "url" = Some u ∧
            title new = JSON_stringify t ∧ url new = JSON_stringify u ∧
            addedBy new
              = JSON_stringify (or_else (field body "addedBy") (JStr "admin")) ∧
            addedAt new = new_Date e).
Proof.
  intros Hstatus.
  assert (∀ key', key ≠ key' →
            stored_under key' (addLink e key body st).2 = stored_under key' st)
    as Hother by (intros key' Hne; by apply addLink_stored_other).
  revert Hother. unfold stored_under. destruct USE_DB eqn:Hdb.
  - destruct (addLink_201_db e key body st Hdb Hstatus)
      as (t & u & ts & us & as' & (Ht & Hu & _) & Hts & Hus & Has & _ & _ & ->).
    apply present_Some in Ht as [Hft _]. apply present_Some in Hu as [Hfu _].
    intros Hother. eexists. split; [done|]. split; [done|]. split; [|split].
    + cbn [snd]. rewrite documents_of_created. cbn [subjectKey].
      by rewrite decide_True.
    + done.
    + exists ts, us, as'. rewrite Hft, Hfu. by repeat split.
  - destruct (addLink_201_file e key body st Hdb Hstatus)
      as (t & u & ls & (Ht & Hu & _) & Hls & ->).
    apply present_Some in Ht as [Hft _]. apply present_Some in Hu as [Hfu _].
    intros Hother. eexists. split; [done|]. split; [done|]. split; [|split].
    + cbn [snd]. rewrite data_of_written.
      rewrite (links_or_empty_links _ _ ls Hls).
      by rewrite (links_or_empty_updated _ _ _ ls), decide_True.
    + done.
    + exists t, u. by repeat split.
Qed.

(** X17.  The object answered by [getAllSubjects] has no entry besides those
    of the registry: whatever else [data.json] holds under another key is
    never shown. *)
Theorem getAllSubjects_only_registry `{Platform} (key : string) (st : store) :
  key ∉ Object_keys SUBJECTS →
  ∃ result,
    (getAllSubjects st).1 = {| status := 200; body := JsonSubjects result |} ∧
    result !! key = None.
Proof.
  intros Hkey. destruct USE_DB eqn:Hdb.
  - rewrite getAllSubjects_db by done. eexists. split; [done|].
    by rewrite (lookup_foldl_insert_notin
      (λ k s, {| subject_name := name s;
                 subject_links := sort_addedAt (documents_of k st) |})).
  - rewrite getAllSubjects_file by done. eexists. split; [done|].
    by rewrite (lookup_foldl_insert_notin
      (λ k s, {| subject_name := name s;
                 subject_links := links_or_empty (data_of st) k |})).
Qed.

(** * The further properties on concrete requests *)

Lemma deleteLink_file_outcome_witness :
  (∃ idx removed,
     links_or_empty (data_of (file_run clock_back_trace)) "toc" !! idx
       = Some removed ∧
     default "" (_id removed) = "loyw3v28" ∧
     (∀ j l, links_or_empty (data_of (file_run clock_back_trace)) "toc" !! j
               = Some l → (j < idx)%nat → default "" (_id l) ≠ "loyw3v28") ∧
     (@deleteLink file_platform "toc" "loyw3v28" (file_run clock_back_trace)).1
       = {| status := 200; body := JsonLink removed |} ∧
     ∀ key',
       links_or_empty
         (data_of (@deleteLink file_platform "toc" "loyw3v28"
                     (file_run clock_back_trace)).2) key'
       = if decide (key' = "toc")
         then delete idx (links_or_empty (data_of (file_run clock_back_trace)) "toc")
         else links_or_empty (data_of (file_run clock_back_trace)) key')
  ∨ (Forall (λ l, default "" (_id l) ≠ "loyw3v28")
       (links_or_empty (data_of (file_run clock_back_trace)) "toc") ∧
     (@deleteLink file_platform "toc" "loyw3v28" (file_run clock_back_trace)).1
       = json_error 404 "Link not found" ∧
     data_of (@deleteLink file_platform "toc" "loyw3v28"
                (file_run clock_back_trace)).2
       = data_of (file_run clock_back_trace)).
Proof.
  apply (@deleteLink_file_outcome file_platform "toc" "loyw3v28").
  - reflexivity.
  - apply (bool_decide_unpack _). by vm_compute.
Defined.

Lemma deleteLink_db_outcome_witness :
  (∃ idx deleted,
     collection (db_run clock_back_trace) !! idx = Some deleted ∧
     _id deleted = Some "65527f3a0000000000000001" ∧
     subjectKey deleted = "toc" ∧
     (∀ j l, collection (db_run clock_back_trace) !! j = Some l → (j < idx)%nat →
             ¬ (_id l = Some "65527f3a0000000000000001" ∧ subjectKey l = "toc")) ∧
     @deleteLink db_platform "toc" "65527f3a0000000000000001"
       (db_run clock_back_trace)
     = ({| status := 200; body := JsonLink deleted |},
        {| file := file (db_run clock_back_trace);
           collection := delete idx (collection (db_run clock_back_trace)) |}))
  ∨ (Forall (λ l, ¬ (_id l = Some "65527f3a0000000000000001" ∧
                     subjectKey l = "toc"))
       (collection (db_run clock_back_trace)) ∧
     @deleteLink db_platform "toc" "65527f3a0000000000000001"
       (db_run clock_back_trace)
     = (json_error 404 "Link not found", db_run clock_back_trace)).
Proof.
  apply (@deleteLink_db_outcome db_platform "toc" "65527f3a0000000000000001"
           "65527f3a0000000000000001").
  - reflexivity.
  - apply (bool_decide_unpack _). by vm_compute.
  - reflexivity.
Defined.

Lemma delete_isolated_witness :
  @stored_under file_platform "ai"
    (@deleteLink file_platform "toc" "loyw3v28" (file_run same_tick_trace)).2
    = @stored_under file_platform "ai" (file_run same_tick_trace) ∧
  (@getSubjectLinks file_platform "ai"
     (@deleteLink file_platform "toc" "loyw3v28" (file_run same_tick_trace)).2).1
    = (@getSubjectLinks file_platform "ai" (file_run same_tick_trace)).1.
Proof.
  apply (@delete_isolated file_platform "toc" "ai" "loyw3v28"). done.
Defined.

Lemma failed_add_changes_nothing_witness :
  (status (@addLink file_platform (at_time 1700000002000 "") "toc"
             (link_body "T" "not-a-url") (file_run steady_trace)).1 = 400 ∨
   status (@addLink file_platform (at_time 1700000002000 "") "toc"
             (link_body "T" "not-a-url") (file_run steady_trace)).1 = 404 ∨
   status (@addLink file_platform (at_time 1700000002000 "") "toc"
             (link_body "T" "not-a-url") (file_run steady_trace)).1 = 500) ∧
  data_of (@addLink file_platform (at_time 1700000002000 "") "toc"
             (link_body "T" "not-a-url") (file_run steady_trace)).2
    = data_of (file_run steady_trace) ∧
  collection (@addLink file_platform (at_time 1700000002000 "") "toc"
                (link_body "T" "not-a-url") (file_run steady_trace)).2
    = collection (file_run steady_trace).
Proof.
  apply (@failed_add_changes_nothing file_platform). by vm_compute.
Defined.

Lemma add_then_delete_file_witness :
  ∃ new,
    (@addLink file_platform (at_time 1700000002000 "") "cn"
       (link_body "Notes" "https://x.test/cn1") (file_run steady_trace)).1
      = {| status := 201; body := JsonLink new |} ∧
    _id new = Some "loyw3wls" ∧
    (@deleteLink file_platform "cn" "loyw3wls"
       (@addLink file_platform (at_time 1700000002000 "") "cn"
          (link_body "Notes" "https://x.test/cn1") (file_run steady_trace)).2).1
      = {| status := 200; body := JsonLink new |} ∧
    data_of (@deleteLink file_platform "cn" "loyw3wls"
               (@addLink file_platform (at_time 1700000002000 "") "cn"
                  (link_body "Notes" "https://x.test/cn1")
                  (file_run steady_trace)).2).2
      = data_of (file_run steady_trace) ∧
    collection (@deleteLink file_platform "cn" "loyw3wls"
                  (@addLink file_platform (at_time 1700000002000 "") "cn"
                     (link_body "Notes" "https://x.test/cn1")
                     (file_run steady_trace)).2).2
      = collection (file_run steady_trace).
Proof.
  apply (@add_then_delete_file file_platform (at_time 1700000002000 "") "cn"
           (link_body "Notes" "https://x.test/cn1") (file_run steady_trace)).
  - reflexivity.
  - by vm_compute.
  - vm_compute. constructor.
Defined.

Lemma add_then_delete_db_witness :
  ∃ created,
    (@addLink db_platform (at_time 1700000002000 "65527f3a0000000000000009") "cn"
       (link_body "Notes" "https://x.test/cn1") (db_run steady_trace)).1
      = {| status := 201; body := JsonLink created |} ∧
    _id created = Some "65527f3a0000000000000009" ∧
    @deleteLink db_platform "cn" "65527f3a0000000000000009"
      (@addLink db_platform (at_time 1700000002000 "65527f3a0000000000000009") "cn"
         (link_body "Notes" "https://x.test/cn1") (db_run steady_trace)).2
      = ({| status := 200; body := JsonLink created |}, db_run steady_trace).
Proof.
  apply (@add_then_delete_db db_platform
           (at_time 1700000002000 "65527f3a0000000000000009") "cn"
           (link_body "Notes" "https://x.test/cn1") (db_run steady_trace)).
  - reflexivity.
  - by vm_compute.
  - reflexivity.
Defined.

Lemma delete_twice_witness :
  (@deleteLink file_platform "toc" "loyw3v28"
     (@deleteLink file_platform "toc" "loyw3v28" (file_run clock_back_trace)).2).1
    = json_error 404 "Link not found" ∧
  data_of (@deleteLink file_platform "toc" "loyw3v28"
             (@deleteLink file_platform "toc" "loyw3v28"
                (file_run clock_back_trace)).2).2
    = data_of (@deleteLink file_platform "toc" "loyw3v28"
                 (file_run clock_back_trace)).2 ∧
  collection (@deleteLink file_platform "toc" "loyw3v28"
                (@deleteLink file_platform "toc" "loyw3v28"
                   (file_run clock_back_trace)).2).2
    = collection (@deleteLink file_platform "toc" "loyw3v28"
                    (file_run clock_back_trace)).2.
Proof.
  apply (@delete_twice file_platform "toc" "loyw3v28" (file_run clock_back_trace)).
  - apply (bool_decide_unpack _). by vm_compute.
  - by vm_compute.
Defined.

Lemma file_add_succeeds_witness :
  registry_shaped (data_of (file_run steady_trace)) ∧
  status (@addLink file_platform (at_time 1700000002000 "") "rm"
            (link_body "Methods" "https://example.com/rm")
            (file_run steady_trace)).1 = 201.
Proof.
  apply (@file_add_succeeds file_platform steady_trace
           (at_time 1700000002000 "") "rm"
           (link_body "Methods" "https://example.com/rm")
           (JStr "Methods") (JStr "https://example.com/rm")).
  - reflexivity.
  - apply (bool_decide_unpack _). by vm_compute.
  - repeat split; by vm_compute.
Defined.

Lemma inherited_key_stores_nothing_witness :
  (@getSubjectLinks file_platform "constructor" (file_run steady_trace)).1
    = {| status := 200; body := JsonLinks [] |} ∧
  (@addLink file_platform (at_time 1700000002000 "") "constructor"
     (link_body "T" "https://example.com") (file_run steady_trace)).1
    = json_error 500 "Failed to add link" ∧
  data_of (@addLink file_platform (at_time 1700000002000 "") "constructor"
             (link_body "T" "https://example.com") (file_run steady_trace)).2
    = data_of (file_run steady_trace) ∧
  collection (@addLink file_platform (at_time 1700000002000 "") "constructor"
                (link_body "T" "https://example.com") (file_run steady_trace)).2
    = collection (file_run steady_trace) ∧
  (@deleteLink file_platform "constructor" "loyw3v28" (file_run steady_trace)).1
    = json_error 404 "Link not found".
Proof.
  apply (@inherited_key_stores_nothing file_platform steady_trace
           (at_time 1700000002000 "") "constructor" "loyw3v28"
           (link_body "T" "https://example.com")
           (JStr "T") (JStr "https://example.com")).
  - apply (bool_decide_unpack _). by vm_compute.
  - repeat split; by vm_compute.
Defined.

Lemma add_stores_one_witness :
  (∃ new,
     (@addLink file_platform (at_time 1700000002000 "") "cn" overflowing_body
        (file_run steady_trace)).1
       = {| status := 201; body := JsonLink new |} ∧
     subjectKey new = "cn" ∧
     @stored_under file_platform "cn"
       (@addLink file_platform (at_time 1700000002000 "") "cn" overflowing_body
          (file_run steady_trace)).2
       = @stored_under file_platform "cn" (file_run steady_trace) ++ [new] ∧
     (∀ key', "cn" ≠ key' →
        @stored_under file_platform key'
          (@addLink file_platform (at_time 1700000002000 "") "cn"
             overflowing_body (file_run steady_trace)).2
        = @stored_under file_platform key' (file_run steady_trace)) ∧
     ∃ t u,
       field overflowing_body "title" = Some t ∧
       field overflowing_body "url" = Some u ∧
       title new = JSON_stringify t ∧ url new = JSON_stringify u ∧
       addedBy new
         = JSON_stringify (or_else (field overflowing_body "addedBy")
                             (JStr "admin")) ∧
       addedAt new = 1700000002000) ∧
  (@addLink file_platform (at_time 1700000002000 "") "cn" overflowing_body
     (file_run steady_trace)).1
  = {| status := 201;
       body := JsonLink {| _id := Some "loyw3wls"; subjectKey := "cn";
                           title := JNull; url := JStr "https://x.test/cn1";
                           addedBy := JStr "dilip";
                           addedAt := 1700000002000 |} |}.
Proof.
  split.
  - apply (@add_stores_one file_platform (at_time 1700000002000 "") "cn"
             overflowing_body (file_run steady_trace)).
    by vm_compute.
  - by vm_compute.
Defined.

Lemma getAllSubjects_only_registry_witness :
  ∃ result,
    (@getAllSubjects file_platform
       {| file := Some (<["archive" := {| entry_name := "Archive";
                                          links := Some [] |}]> defaultJsonData);
          collection := [] |}).1
      = {| status := 200; body := JsonSubjects result |} ∧
    result !! "archive" = None.
Proof.
  apply (@getAllSubjects_only_registry file_platform "archive").
  apply (bool_decide_unpack _). by vm_compute.
Defined.
